(** * Theme switcher (src/js/theme-switcher.js)

    A shallow embedding of the dark/light theme switcher: the script's
    functions become computations over an explicit browser state (the root
    element's attributes, localStorage, the media query, the console and the
    dispatched events), with JavaScript exceptions as an explicit outcome. *)

From stdpp Require Import gmap strings list.

Local Open Scope string_scope.

(** ** Browser state *)

(** How the browser answers an access to [localStorage]: it works, it
    rejects writes (quota exceeded, private mode), or every access throws
    (storage disabled or restricted). *)
Inductive StorageAccess : Type :=
  | StorageOk
  | StorageQuotaExceeded
  | StorageDenied.

Inductive Exn : Type :=
  | SecurityError
  | QuotaExceededError.

(** The two closures that [initThemeSwitchers] attaches to a switcher. *)
Inductive Listener : Type :=
  | ClickToggle
  | KeydownToggle.

(** An element of the page: class list, the attributes other than class, and
    the listeners of this script, in registration order, each with its event
    type. *)
Record Element : Type := mkElement {
  classList : list string;
  attributes : gmap string string;
  listeners : list (string * Listener)
}.

Record World : Type := mkWorld {
  (** attributes of [document.documentElement], other than class *)
  documentElement : gmap string string;
  (** content of [localStorage] *)
  localStorage : gmap string string;
  storage_access : StorageAccess;
  (** [window.matchMedia]: [None] when the function is missing, otherwise
      [.matches] of the query (prefers-color-scheme: dark) *)
  matchMedia : option bool;
  (** [document.readyState === 'loading'] *)
  loading : bool;
  (** the DOMContentLoaded listener of the script is registered *)
  domReadyHooked : bool;
  (** the 'change' listener on the media query is registered *)
  mediaWatched : bool;
  (** the elements of the document below the root element, in document
      order *)
  elements : list Element;
  (** messages passed to [console.warn], latest first *)
  console : list string;
  (** [detail.theme] of the 'themechange' events dispatched on [window],
      latest first *)
  dispatched : list string;
  (** class list of [document.documentElement] *)
  rootClassList : list string;
  (** listeners of this script on [document.documentElement] *)
  rootListeners : list (string * Listener);
  (** [parentNode]: for an element of [elements], by position, the position
      of its parent; no entry for a child of the root element *)
  parentNode : gmap nat nat
}.

Definition set_documentElement (f : gmap string string → gmap string string)
    (w : World) : World :=
  mkWorld (f (documentElement w)) (localStorage w) (storage_access w)
    (matchMedia w) (loading w) (domReadyHooked w) (mediaWatched w)
    (elements w) (console w) (dispatched w)
    (rootClassList w) (rootListeners w) (parentNode w).

Definition set_localStorage (f : gmap string string → gmap string string)
    (w : World) : World :=
  mkWorld (documentElement w) (f (localStorage w)) (storage_access w)
    (matchMedia w) (loading w) (domReadyHooked w) (mediaWatched w)
    (elements w) (console w) (dispatched w)
    (rootClassList w) (rootListeners w) (parentNode w).

Definition set_domReadyHooked (b : bool) (w : World) : World :=
  mkWorld (documentElement w) (localStorage w) (storage_access w)
    (matchMedia w) (loading w) b (mediaWatched w)
    (elements w) (console w) (dispatched w)
    (rootClassList w) (rootListeners w) (parentNode w).

Definition set_mediaWatched (b : bool) (w : World) : World :=
  mkWorld (documentElement w) (localStorage w) (storage_access w)
    (matchMedia w) (loading w) (domReadyHooked w) b
    (elements w) (console w) (dispatched w)
    (rootClassList w) (rootListeners w) (parentNode w).

Definition set_elements (f : list Element → list Element) (w : World) : World :=
  mkWorld (documentElement w) (localStorage w) (storage_access w)
    (matchMedia w) (loading w) (domReadyHooked w) (mediaWatched w)
    (f (elements w)) (console w) (dispatched w)
    (rootClassList w) (rootListeners w) (parentNode w).

Definition push_console (msg : string) (w : World) : World :=
  mkWorld (documentElement w) (localStorage w) (storage_access w)
    (matchMedia w) (loading w) (domReadyHooked w) (mediaWatched w)
    (elements w) (msg :: console w) (dispatched w)
    (rootClassList w) (rootListeners w) (parentNode w).

Definition push_dispatched (theme : string) (w : World) : World :=
  mkWorld (documentElement w) (localStorage w) (storage_access w)
    (matchMedia w) (loading w) (domReadyHooked w) (mediaWatched w)
    (elements w) (console w) (theme :: dispatched w)
    (rootClassList w) (rootListeners w) (parentNode w).

(** [document.documentElement] as an element, and its update. *)
Definition rootElement (w : World) : Element :=
  mkElement (rootClassList w) (documentElement w) (rootListeners w).

Definition set_rootElement (el : Element) (w : World) : World :=
  mkWorld (attributes el) (localStorage w) (storage_access w)
    (matchMedia w) (loading w) (domReadyHooked w) (mediaWatched w)
    (elements w) (console w) (dispatched w)
    (classList el) (listeners el) (parentNode w).

(** ** Computations that may throw *)

Inductive Completion (A : Type) : Type :=
  | Normal (a : A)
  | Throw (e : Exn).
Arguments Normal {A} a.
Arguments Throw {A} e.

Definition JS (A : Type) : Type := World → Completion A * World.

Definition ret {A} (a : A) : JS A := fun w => (Normal a, w).

Definition throw {A} (e : Exn) : JS A := fun w => (Throw e, w).

Definition bind {A B} (c : JS A) (k : A → JS B) : JS B :=
  fun w =>
    match c w with
    | (Normal a, w') => k a w'
    | (Throw e, w') => (Throw e, w')
    end.

(** [try { body } catch (e) { handler }] *)
Definition try_catch {A} (body : JS A) (handler : Exn → JS A) : JS A :=
  fun w =>
    match body w with
    | (Normal a, w') => (Normal a, w')
    | (Throw e, w') => handler e w'
    end.

Declare Scope js_scope.
Delimit Scope js_scope with js.
Notation "x <- c ;; k" := (bind c (fun x => k))
  (at level 100, c at next level, right associativity) : js_scope.
Notation "c ;; k" := (bind c (fun _ => k))
  (at level 100, right associativity) : js_scope.
Local Open Scope js_scope.

(** State after a computation, and whether it completed without throwing. *)
Definition exec {A} (c : JS A) (w : World) : World := snd (c w).

Definition returns {A} (c : JS A) (w : World) : bool :=
  match fst (c w) with
  | Normal _ => true
  | Throw _ => false
  end.

(** ** Browser primitives used by the script *)

Definition localStorage_getItem (key : string) : JS (option string) :=
  fun w =>
    match storage_access w with
    | StorageDenied => throw SecurityError w
    | _ => ret (localStorage w !! key) w
    end.

Definition localStorage_setItem (key value : string) : JS unit :=
  fun w =>
    match storage_access w with
    | StorageOk => ret tt (set_localStorage (insert key value) w)
    | StorageQuotaExceeded => throw QuotaExceededError w
    | StorageDenied => throw SecurityError w
    end.

Definition console_warn (msg : string) : JS unit :=
  fun w => (Normal tt, push_console msg w).

Definition getAttribute (name : string) : JS (option string) :=
  fun w => (Normal (documentElement w !! name), w).

Definition setAttribute (name value : string) : JS unit :=
  fun w => (Normal tt, set_documentElement (insert name value) w).

Definition removeAttribute (name : string) : JS unit :=
  fun w => (Normal tt, set_documentElement (delete name) w).

(** [window.matchMedia && window.matchMedia('(prefers-color-scheme: dark)').matches] *)
Definition prefers_color_scheme_dark : JS bool :=
  fun w =>
    (Normal match matchMedia w with Some m => m | None => false end, w).

(** [window.dispatchEvent(new CustomEvent('themechange', {detail: {theme}}))] *)
Definition dispatch_themechange (theme : string) : JS unit :=
  fun w => (Normal tt, push_dispatched theme w).

(** [v === s] for [v] a string or null. *)
Definition strict_eq (v : option string) (s : string) : bool :=
  match v with
  | Some x => String.eqb x s
  | None => false
  end.

(** [!v] for [v] a string or null: null and the empty string are falsy. *)
Definition js_not (v : option string) : bool :=
  match v with
  | None => true
  | Some x => String.eqb x ""
  end.

(** ** The script *)

Definition STORAGE_KEY : string := "sm-portal-theme".
Definition THEME_LIGHT : string := "light".
Definition THEME_DARK : string := "dark".

(** The [try] block of [getStoredTheme] either returns from the function
    ([Some stored]) or falls through to the system preference ([None]). *)
Definition getStoredTheme : JS string :=
  early <- try_catch
    (stored <- localStorage_getItem STORAGE_KEY ;;
     if strict_eq stored THEME_DARK || strict_eq stored THEME_LIGHT
     then ret stored
     else ret None)
    (fun _ =>
       console_warn "localStorage not available for theme storage" ;;
       ret None) ;;
  match early with
  | Some stored => ret stored
  | None =>
      dark <- prefers_color_scheme_dark ;;
      if dark then ret THEME_DARK else ret THEME_LIGHT
  end.

Definition saveTheme (theme : string) : JS unit :=
  try_catch
    (localStorage_setItem STORAGE_KEY theme)
    (fun _ => console_warn "Could not save theme to localStorage").

Definition applyTheme (theme : string) : JS unit :=
  if String.eqb theme THEME_DARK
  then setAttribute "data-theme" "dark"
  else removeAttribute "data-theme".

Definition toggleTheme : JS string :=
  currentTheme <- getAttribute "data-theme" ;;
  let newTheme := if strict_eq currentTheme "dark" then THEME_LIGHT else THEME_DARK in
  applyTheme newTheme ;;
  saveTheme newTheme ;;
  dispatch_themechange newTheme ;;
  ret newTheme.

(** *** Trigger elements *)

(** A DOM event as the two listeners and the dispatch see it: its type,
    [e.key] (undefined for a click), whether it bubbles and can be
    cancelled, and the flag that [e.preventDefault()] sets. *)
Record Event : Type := mkEvent {
  type : string;
  key : option string;
  bubbles : bool;
  cancelable : bool;
  defaultPrevented : bool
}.

(** [e.preventDefault()]: sets the flag of a cancelable event and does
    nothing to another one. *)
Definition preventDefault (e : Event) : Event :=
  if cancelable e
  then mkEvent (type e) (key e) (bubbles e) (cancelable e) true
  else e.

(** The 'click' listener of a switcher. The event object is mutable in the
    source; here the listener hands it back. *)
Definition onClick (e : Event) : JS Event :=
  let e := preventDefault e in
  toggleTheme ;;
  ret e.

(** The 'keydown' listener of a switcher. *)
Definition onKeydown (e : Event) : JS Event :=
  if strict_eq (key e) "Enter" || strict_eq (key e) " "
  then
    let e := preventDefault e in
    toggleTheme ;;
    ret e
  else ret e.

Definition handleEvent (l : Listener) : Event → JS Event :=
  match l with
  | ClickToggle => onClick
  | KeydownToggle => onKeydown
  end.

(** The listeners of one element registered for the event's type run in
    registration order. *)
Fixpoint runListeners (ls : list (string * Listener)) (e : Event) : JS Event :=
  match ls with
  | [] => ret e
  | (ty, l) :: ls' =>
      if String.eqb ty (type e)
      then e' <- handleEvent l e ;; runListeners ls' e'
      else runListeners ls' e
  end.

(** The target of an event: the root element or an element below it, by
    position in [elements]. *)
Inductive Target : Type :=
  | TRoot
  | TElement (i : nat).

Definition node (w : World) (t : Target) : option Element :=
  match t with
  | TRoot => Some (rootElement w)
  | TElement i => elements w !! i
  end.

(** The positions of the proper ancestors of element [i] below the root,
    nearest first; a document of [n] elements has no chain longer than [n]. *)
Fixpoint ancestors (n : nat) (parents : gmap nat nat) (i : nat) : list nat :=
  match n with
  | O => []
  | S n' =>
      match parents !! i with
      | Some p => p :: ancestors n' parents p
      | None => []
      end
  end.

(** The elements that enclose the target, nearest first, ending with the
    root element. *)
Definition enclosing (w : World) (t : Target) : list Element :=
  match t with
  | TRoot => []
  | TElement i =>
      omap (fun j => elements w !! j)
        (ancestors (length (elements w)) (parentNode w) i)
      ++ [rootElement w]
  end.

(** The elements whose listeners an event dispatched at [t] reaches: the
    target, then, for an event that bubbles, the enclosing elements up to
    the root. The script adds no capturing listener and never stops the
    propagation. *)
Definition eventPath (w : World) (t : Target) (e : Event) : list Element :=
  match node w t with
  | Some el => el :: (if bubbles e then enclosing w t else [])
  | None => []
  end.

Fixpoint runPath (path : list Element) (e : Event) : JS Event :=
  match path with
  | [] => ret e
  | el :: path' => e' <- runListeners (listeners el) e ;; runPath path' e'
  end.

(** [t.dispatchEvent(e)] *)
Definition dispatchEvent (t : Target) (e : Event) : JS Event :=
  fun w => runPath (eventPath w t e) e w.

Definition classList_remove (c : string) (el : Element) : Element :=
  mkElement (filter (fun x => x ≠ c) (classList el)) (attributes el) (listeners el).

Definition el_setAttribute (name value : string) (el : Element) : Element :=
  mkElement (classList el) (<[name := value]> (attributes el)) (listeners el).

Definition addEventListener (ty : string) (l : Listener) (el : Element) : Element :=
  mkElement (classList el) (attributes el) (listeners el ++ [(ty, l)])%list.

(** The body of the [forEach] in [initThemeSwitchers]. *)
Definition bindSwitcher (switcher : Element) : Element :=
  let switcher := classList_remove "hidden" switcher in
  let switcher := addEventListener "click" ClickToggle switcher in
  let switcher := el_setAttribute "role" "button" switcher in
  let switcher := el_setAttribute "aria-label" "Toggle dark mode" switcher in
  let switcher := el_setAttribute "tabindex" "0" switcher in
  addEventListener "keydown" KeydownToggle switcher.

(** [el] matches the selector '.theme-switcher'. *)
Definition is_switcher (el : Element) : bool :=
  bool_decide ("theme-switcher" ∈ classList el).

(** [querySelectorAll] ranges over the root element and the elements below
    it. *)
Definition initThemeSwitchers : JS unit :=
  fun w =>
    let each := fun el => if is_switcher el then bindSwitcher el else el in
    (Normal tt,
     set_elements (map each) (set_rootElement (each (rootElement w)) w)).

(** *** System preference *)

(** The 'change' listener registered by [watchSystemTheme]; [e_matches] is
    [e.matches]. The storage read is outside any [try]. *)
Definition onSystemThemeChange (e_matches : bool) : JS unit :=
  storedTheme <- localStorage_getItem STORAGE_KEY ;;
  if js_not storedTheme
  then applyTheme (if e_matches then THEME_DARK else THEME_LIGHT)
  else ret tt.

Definition watchSystemTheme : JS unit :=
  fun w =>
    match matchMedia w with
    | Some _ => (Normal tt, set_mediaWatched true w)
    | None => (Normal tt, w)
    end.

(** *** Startup and the exposed API *)

Definition onDOMContentLoaded : JS unit :=
  initThemeSwitchers ;;
  watchSystemTheme.

(** The body of the script, top to bottom. *)
Definition main : JS unit :=
  theme <- getStoredTheme ;;
  applyTheme theme ;;
  fun w =>
    if loading w
    then (Normal tt, set_domReadyHooked true w)
    else onDOMContentLoaded w.

Module ThemeSwitcher.

Definition toggle : JS string := toggleTheme.

Definition setTheme (theme : string) : JS unit :=
  applyTheme theme ;;
  saveTheme theme.

Definition getTheme : JS string :=
  current <- getAttribute "data-theme" ;;
  ret (if strict_eq current "dark" then THEME_DARK else THEME_LIGHT).

End ThemeSwitcher.

(** ** Observations on a state *)

(** The document marker: the root element's data-theme attribute. *)
Definition marker (w : World) : option string :=
  documentElement w !! "data-theme".

(** The value persisted under [STORAGE_KEY]. *)
Definition stored (w : World) : option string :=
  localStorage w !! STORAGE_KEY.

(** The theme that the document shows, as [ThemeSwitcher.getTheme] reads it. *)
Definition applied (w : World) : string :=
  if strict_eq (marker w) "dark" then THEME_DARK else THEME_LIGHT.

(** The marker is absent or is exactly 'dark'. *)
Definition marker_ok (w : World) : Prop :=
  marker w = None ∨ marker w = Some "dark".

(** What the system signal says: 'dark' when the media query exists and
    matches, 'light' otherwise. *)
Definition system_theme (w : World) : string :=
  match matchMedia w with
  | Some true => THEME_DARK
  | _ => THEME_LIGHT
  end.

(** The theme that [toggleTheme] switches to. *)
Definition opposite (w : World) : string :=
  if strict_eq (marker w) "dark" then THEME_LIGHT else THEME_DARK.

(** What can happen to the page once the script is loaded: the script body
    runs, the document finishes parsing, one of the script's functions or
    API entries is called, or one of its listeners receives an event. *)
Inductive Action : Type :=
  | Startup
  | DomContentLoaded
  | Apply (theme : string)
  | Toggle
  | SetTheme (theme : string)
  | SystemChange (e_matches : bool)
  | Click (e : Event)
  | Keydown (e : Event).

Definition perform (a : Action) : World → World :=
  match a with
  | Startup => exec main
  | DomContentLoaded => exec onDOMContentLoaded
  | Apply theme => exec (applyTheme theme)
  | Toggle => exec ThemeSwitcher.toggle
  | SetTheme theme => exec (ThemeSwitcher.setTheme theme)
  | SystemChange e_matches => exec (onSystemThemeChange e_matches)
  | Click e => exec (onClick e)
  | Keydown e => exec (onKeydown e)
  end.

(** The states of a session: the script body has run, then any actions. *)
Inductive reachable : World → Prop :=
  | reachable_startup (w0 : World) : reachable (exec main w0)
  | reachable_step (a : Action) (w : World) :
      reachable w → reachable (perform a w).

(** An empty page: no marker, nothing stored, storage working, the system
    not preferring dark, the document already parsed. *)
Definition blank : World :=
  mkWorld ∅ ∅ StorageOk (Some false) false false false [] [] [] [] [] ∅.

Definition with_stored (v : string) (w : World) : World :=
  set_localStorage (insert STORAGE_KEY v) w.

Definition with_access (a : StorageAccess) (w : World) : World :=
  mkWorld (documentElement w) (localStorage w) a
    (matchMedia w) (loading w) (domReadyHooked w) (mediaWatched w)
    (elements w) (console w) (dispatched w)
    (rootClassList w) (rootListeners w) (parentNode w).

Definition with_marker (v : string) (w : World) : World :=
  set_documentElement (insert "data-theme" v) w.

Definition with_matchMedia (m : option bool) (w : World) : World :=
  mkWorld (documentElement w) (localStorage w) (storage_access w)
    m (loading w) (domReadyHooked w) (mediaWatched w)
    (elements w) (console w) (dispatched w)
    (rootClassList w) (rootListeners w) (parentNode w).


Definition with_elements (els : list Element) (w : World) : World :=
  set_elements (fun _ => els) w.


Definition with_rootClassList (classes : list string) (w : World) : World :=
  set_rootElement (mkElement classes (documentElement w) (rootListeners w)) w.

(** [w] has the elements of [w'], each with its classes and its listeners;
    the root element's attributes and the rest of the state are free. *)
Definition same_page (w w' : World) : Prop :=
  rootClassList w = rootClassList w'
  ∧ rootListeners w = rootListeners w'
  ∧ elements w = elements w'.



Definition mouse_click : Event :=
  mkEvent "click" None true true false.

(** One of the two values of the theme. *)
Definition is_theme (t : string) : Prop :=
  t = THEME_LIGHT ∨ t = THEME_DARK.

(** Nothing is persisted under the key, or one of the two themes is. *)
Definition stored_ok (w : World) : Prop :=
  stored w = None ∨ stored w = Some THEME_LIGHT ∨ stored w = Some THEME_DARK.

(** Whatever is persisted under the key is the theme that the document
    shows. *)
Definition agrees (w : World) : Prop :=
  stored w = None ∨ stored w = Some (applied w).

(** The actions open to the page and its user: everything but a direct call
    of the internal [applyTheme], with [setTheme] given one of the two
    themes. *)
Definition outside_action (a : Action) : Prop :=
  match a with
  | Apply _ => False
  | SetTheme theme => is_theme theme
  | _ => True
  end.

(** ** Equations of the script's functions *)

Ltac js_unfold :=
  unfold exec, returns, bind, try_catch,
    localStorage_getItem, localStorage_setItem, console_warn,
    getAttribute, setAttribute, removeAttribute,
    prefers_color_scheme_dark, dispatch_themechange, ret, throw in *.

Lemma applyTheme_eq (theme : string) (w : World) :
  applyTheme theme w =
    (Normal tt,
     set_documentElement
       (if String.eqb theme THEME_DARK
        then insert "data-theme" "dark"
        else delete "data-theme") w).
Proof. unfold applyTheme. destruct (String.eqb theme THEME_DARK); reflexivity. Qed.

Lemma saveTheme_eq (theme : string) (w : World) :
  saveTheme theme w =
    (Normal tt,
     match storage_access w with
     | StorageOk => set_localStorage (insert STORAGE_KEY theme) w
     | _ => push_console "Could not save theme to localStorage" w
     end).
Proof. unfold saveTheme. js_unfold. destruct (storage_access w); reflexivity. Qed.

Lemma marker_applyTheme (theme : string) (w : World) :
  marker (exec (applyTheme theme) w) =
    if String.eqb theme THEME_DARK then Some "dark" else None.
Proof.
  unfold exec, marker. rewrite applyTheme_eq. simpl.
  destruct (String.eqb theme THEME_DARK).
  - apply lookup_insert_eq.
  - apply lookup_delete_eq.
Qed.

Lemma marker_ok_applyTheme (theme : string) (w : World) :
  marker_ok (exec (applyTheme theme) w).
Proof.
  unfold marker_ok. rewrite marker_applyTheme.
  destruct (String.eqb theme THEME_DARK); auto.
Qed.



(** ** apply *)

(** C7. [applyTheme] is idempotent: applying a theme a second time leaves
    the whole state, and so the document marker, as the first application
    left it, for every argument; and after one or two applications of
    'light' the marker is absent. *)
Theorem applyTheme_idempotent (theme : string) (w : World) :
  exec (applyTheme theme ;; applyTheme theme) w = exec (applyTheme theme) w
  ∧ marker (exec (applyTheme theme ;; applyTheme theme) w)
      = marker (exec (applyTheme theme) w)
  ∧ marker (exec (applyTheme THEME_LIGHT) w) = None
  ∧ marker (exec (applyTheme THEME_LIGHT ;; applyTheme THEME_LIGHT) w) = None.
Proof.
  assert (Hidem : ∀ t, exec (applyTheme t ;; applyTheme t) w = exec (applyTheme t) w).
  { intros t. unfold exec, bind. rewrite !applyTheme_eq. simpl.
    unfold set_documentElement; simpl. f_equal.
    destruct (String.eqb t THEME_DARK).
    - apply insert_insert_eq.
    - apply delete_delete_eq. }
  split; [apply Hidem|]. split; [by rewrite Hidem|].
  split; [|rewrite Hidem]; by rewrite marker_applyTheme.
Qed.

(** ** resolve initial theme and persist *)

Lemma getStoredTheme_eq (w : World) :
  getStoredTheme w =
    match storage_access w with
    | StorageDenied =>
        (Normal (system_theme w),
         push_console "localStorage not available for theme storage" w)
    | _ =>
        (Normal
           (match stored w with
            | Some s =>
                if String.eqb s THEME_DARK || String.eqb s THEME_LIGHT
                then s else system_theme w
            | None => system_theme w
            end), w)
    end.
Proof.
  unfold getStoredTheme, system_theme, stored. js_unfold.
  destruct (storage_access w); simpl;
    try (destruct (localStorage w !! STORAGE_KEY) as [s|]; simpl;
         try destruct (String.eqb s THEME_DARK || String.eqb s THEME_LIGHT));
    simpl; destruct (matchMedia w) as [[]|]; reflexivity.
Qed.

Lemma getStoredTheme_returns (w : World) : returns getStoredTheme w = true.
Proof.
  unfold returns. rewrite getStoredTheme_eq.
  destruct (storage_access w); reflexivity.
Qed.

Lemma system_theme_valid (w : World) :
  system_theme w = THEME_DARK ∨ system_theme w = THEME_LIGHT.
Proof. unfold system_theme. destruct (matchMedia w) as [[]|]; auto. Qed.

(** C4. [getStoredTheme] never throws and its result is 'dark' or 'light':
    the persisted value when that can be read and is exactly 'dark' or
    'light'; in every other case (nothing stored, another value stored, the
    storage access throwing) 'dark' when the media query reports
    prefers-dark and 'light' otherwise. *)
Theorem getStoredTheme_resolves (w : World) :
  ∃ t : string,
    fst (getStoredTheme w) = Normal t
    ∧ (t = THEME_DARK ∨ t = THEME_LIGHT)
    ∧ (storage_access w ≠ StorageDenied →
       stored w = Some THEME_DARK ∨ stored w = Some THEME_LIGHT →
       stored w = Some t)
    ∧ (storage_access w = StorageDenied
       ∨ (stored w ≠ Some THEME_DARK ∧ stored w ≠ Some THEME_LIGHT) →
       t = system_theme w)
    ∧ (matchMedia w = Some true → system_theme w = THEME_DARK)
    ∧ (matchMedia w ≠ Some true → system_theme w = THEME_LIGHT).
Proof.
  assert (Hsys : (matchMedia w = Some true → system_theme w = THEME_DARK)
                 ∧ (matchMedia w ≠ Some true → system_theme w = THEME_LIGHT)).
  { unfold system_theme. destruct (matchMedia w) as [[]|]; split; congruence. }
  rewrite getStoredTheme_eq.
  destruct (storage_access w) eqn:Hacc;
    try (destruct (stored w) as [s|] eqn:Hs;
         [destruct (String.eqb s THEME_DARK) eqn:Hd;
          [apply String.eqb_eq in Hd
          |destruct (String.eqb s THEME_LIGHT) eqn:Hl;
           [apply String.eqb_eq in Hl|]]|]);
    simpl; eexists; (split; [reflexivity|]);
    repeat split; try apply Hsys; subst;
    try apply String.eqb_neq in Hd; try apply String.eqb_neq in Hl;
    auto using system_theme_valid;
    try (intros; congruence);
    try (intros _ [?|?]; congruence);
    try (intros [?|[? ?]]; congruence).
Qed.

Lemma getStoredTheme_resolves_witness :
  ∃ t : string,
    fst (getStoredTheme (with_stored "dark" blank)) = Normal t ∧ t = "dark".
Proof.
  destruct (getStoredTheme_resolves (with_stored "dark" blank))
    as (t & Hret & _ & Hstored & _).
  exists t. split; [exact Hret|].
  assert (H : stored (with_stored "dark" blank) = Some t).
  { apply Hstored; [discriminate | left; reflexivity]. }
  vm_compute in H. congruence.
Defined.

(** C6. With working storage, [saveTheme t] for [t] 'light' or 'dark'
    followed by [getStoredTheme] returns [t]; the same holds for the call
    made after a reload, in any state that kept the storage content. *)
Theorem save_then_resolve (t : string) (w w' : World) :
  storage_access w = StorageOk →
  t = THEME_LIGHT ∨ t = THEME_DARK →
  fst ((saveTheme t ;; getStoredTheme) w) = Normal t
  ∧ (localStorage w' = localStorage (exec (saveTheme t) w) →
     storage_access w' = StorageOk →
     fst (getStoredTheme w') = Normal t).
Proof.
  intros Hok Ht.
  assert (Hread : ∀ w0, storage_access w0 = StorageOk →
            localStorage w0 = <[STORAGE_KEY := t]> (localStorage w) →
            fst (getStoredTheme w0) = Normal t).
  { intros w0 Hok0 Hls. rewrite getStoredTheme_eq, Hok0.
    unfold stored. rewrite Hls, lookup_insert_eq.
    destruct Ht as [-> | ->]; reflexivity. }
  split.
  - unfold bind. rewrite saveTheme_eq, Hok.
    apply Hread; [exact Hok | reflexivity].
  - intros Hls Hok'. apply Hread; [exact Hok'|].
    rewrite Hls. unfold exec. rewrite saveTheme_eq, Hok. reflexivity.
Qed.

Lemma save_then_resolve_witness :
  fst ((saveTheme "dark" ;; getStoredTheme) blank) = Normal "dark"
  ∧ fst (getStoredTheme (with_matchMedia None (exec (saveTheme "dark") blank)))
      = Normal "dark".
Proof.
  destruct (save_then_resolve "dark" blank
              (with_matchMedia None (exec (saveTheme "dark") blank)))
    as [H1 H2].
  - reflexivity.
  - right; reflexivity.
  - split; [exact H1 | apply H2; reflexivity].
Defined.

(** ** toggle *)

Lemma toggleTheme_eq (w : World) :
  toggleTheme w =
    (Normal (opposite w),
     push_dispatched (opposite w)
       (exec (saveTheme (opposite w)) (exec (applyTheme (opposite w)) w))).
Proof.
  unfold toggleTheme, opposite, marker, exec, bind, getAttribute.
  rewrite !applyTheme_eq. simpl. rewrite !saveTheme_eq. reflexivity.
Qed.

Lemma toggleTheme_returns (w : World) : returns toggleTheme w = true.
Proof. unfold returns. rewrite toggleTheme_eq. reflexivity. Qed.

Lemma marker_saveTheme (theme : string) (w : World) :
  documentElement (exec (saveTheme theme) w) = documentElement w.
Proof. unfold exec. rewrite saveTheme_eq. destruct (storage_access w); reflexivity. Qed.

Lemma access_saveTheme (theme : string) (w : World) :
  storage_access (exec (saveTheme theme) w) = storage_access w.
Proof.
  unfold exec. rewrite saveTheme_eq.
  destruct (storage_access w) eqn:Hacc; exact Hacc.
Qed.

Lemma localStorage_saveTheme (theme : string) (w : World) :
  localStorage (exec (saveTheme theme) w) =
    match storage_access w with
    | StorageOk => <[STORAGE_KEY := theme]> (localStorage w)
    | _ => localStorage w
    end.
Proof. unfold exec. rewrite saveTheme_eq. destruct (storage_access w); reflexivity. Qed.

Lemma exec_toggleTheme (w : World) :
  exec toggleTheme w =
    push_dispatched (opposite w)
      (exec (saveTheme (opposite w)) (exec (applyTheme (opposite w)) w)).
Proof. unfold exec at 1. rewrite toggleTheme_eq. reflexivity. Qed.

Lemma documentElement_toggleTheme (w : World) :
  documentElement (exec toggleTheme w) =
    if strict_eq (marker w) "dark"
    then delete "data-theme" (documentElement w)
    else <["data-theme" := "dark"]> (documentElement w).
Proof.
  rewrite exec_toggleTheme.
  change (documentElement (push_dispatched ?t ?w0)) with (documentElement w0).
  rewrite marker_saveTheme. unfold exec. rewrite applyTheme_eq.
  unfold opposite. destruct (strict_eq (marker w) "dark"); reflexivity.
Qed.

Lemma marker_toggleTheme (w : World) :
  marker (exec toggleTheme w) =
    if strict_eq (marker w) "dark" then None else Some "dark".
Proof.
  unfold marker at 1. rewrite documentElement_toggleTheme.
  destruct (strict_eq (marker w) "dark").
  - apply lookup_delete_eq.
  - apply lookup_insert_eq.
Qed.

Lemma localStorage_toggleTheme (w : World) :
  localStorage (exec toggleTheme w) =
    match storage_access w with
    | StorageOk => <[STORAGE_KEY := opposite w]> (localStorage w)
    | _ => localStorage w
    end.
Proof.
  rewrite exec_toggleTheme.
  change (localStorage (push_dispatched ?t ?w0)) with (localStorage w0).
  rewrite localStorage_saveTheme.
  unfold exec. rewrite applyTheme_eq. reflexivity.
Qed.

Lemma access_toggleTheme (w : World) :
  storage_access (exec toggleTheme w) = storage_access w.
Proof.
  rewrite exec_toggleTheme.
  change (storage_access (push_dispatched ?t ?w0)) with (storage_access w0).
  rewrite access_saveTheme. unfold exec. rewrite applyTheme_eq. reflexivity.
Qed.

Lemma dispatched_toggleTheme (w : World) :
  dispatched (exec toggleTheme w) = opposite w :: dispatched w.
Proof.
  rewrite exec_toggleTheme.
  change (dispatched (push_dispatched ?t ?w0)) with (t :: dispatched w0).
  f_equal. unfold exec. rewrite saveTheme_eq, applyTheme_eq.
  destruct (storage_access _); reflexivity.
Qed.

Lemma exec_bind {A B} (c : JS A) (k : JS B) (w : World) :
  returns c w = true → exec (c ;; k) w = exec k (exec c w).
Proof.
  unfold returns, exec, bind. destruct (c w) as [[a|e] w']; simpl; congruence.
Qed.

Lemma opposite_toggled (w : World) : opposite (exec toggleTheme w) = applied w.
Proof.
  unfold opposite, applied. rewrite marker_toggleTheme.
  destruct (strict_eq (marker w) "dark"); reflexivity.
Qed.

(** C1, as stated, fails: once the script has started on an empty page with
    nothing stored, two toggles leave the marker absent, as it was, but
    leave 'light' in storage, where no value was persisted before. *)
Lemma toggle_twice_storage_not_restored :
  ¬ (marker (exec (toggleTheme ;; toggleTheme) (exec main blank))
       = marker (exec main blank)
     ∧ stored (exec (toggleTheme ;; toggleTheme) (exec main blank))
       = stored (exec main blank)).
Proof.
  assert (Hbefore : stored (exec main blank) = None) by reflexivity.
  assert (Hafter : stored (exec (toggleTheme ;; toggleTheme) (exec main blank))
                   = Some "light") by (vm_compute; reflexivity).
  rewrite Hbefore, Hafter. intros [_ H]. discriminate H.
Qed.

(** C1, amended. In a state whose marker is absent or 'dark', two toggles
    in succession complete and return the root element's attributes, so the
    marker and the applied theme, to what they were. Storage that accepts
    writes then holds the originally applied theme under the storage key,
    whatever was or was not persisted before; storage that rejects them is
    unchanged. Hence the persisted value is back to the original one when
    that was the applied theme. *)
Theorem toggle_twice (w : World) :
  marker_ok w →
  returns (toggleTheme ;; toggleTheme) w = true
  ∧ documentElement (exec (toggleTheme ;; toggleTheme) w) = documentElement w
  ∧ marker (exec (toggleTheme ;; toggleTheme) w) = marker w
  ∧ applied (exec (toggleTheme ;; toggleTheme) w) = applied w
  ∧ localStorage (exec (toggleTheme ;; toggleTheme) w) =
      match storage_access w with
      | StorageOk => <[STORAGE_KEY := applied w]> (localStorage w)
      | _ => localStorage w
      end
  ∧ (stored w = Some (applied w) →
     localStorage (exec (toggleTheme ;; toggleTheme) w) = localStorage w).
Proof.
  intros Hok.
  assert (Hret : returns (toggleTheme ;; toggleTheme) w = true).
  { unfold returns, bind. rewrite toggleTheme_eq, toggleTheme_eq. reflexivity. }
  rewrite (exec_bind _ _ _ (toggleTheme_returns w)).
  assert (Hdoc : documentElement (exec toggleTheme (exec toggleTheme w))
                 = documentElement w).
  { rewrite documentElement_toggleTheme, marker_toggleTheme,
      documentElement_toggleTheme.
    destruct Hok as [Hm | Hm]; rewrite Hm; simpl.
    - rewrite delete_insert_eq. apply delete_id. exact Hm.
    - rewrite insert_delete_eq. apply insert_id. exact Hm. }
  assert (Hls : localStorage (exec toggleTheme (exec toggleTheme w)) =
      match storage_access w with
      | StorageOk => <[STORAGE_KEY := applied w]> (localStorage w)
      | _ => localStorage w
      end).
  { rewrite localStorage_toggleTheme, access_toggleTheme,
      localStorage_toggleTheme, opposite_toggled.
    destruct (storage_access w); try reflexivity.
    apply insert_insert_eq. }
  split; [exact Hret|]. split; [exact Hdoc|].
  split; [unfold marker; by rewrite Hdoc|].
  split; [unfold applied, marker; by rewrite Hdoc|].
  split; [exact Hls|].
  intros Hst. rewrite Hls. destruct (storage_access w); try reflexivity.
  apply insert_id. exact Hst.
Qed.

Lemma toggle_twice_witness :
  documentElement
    (exec (toggleTheme ;; toggleTheme) (with_marker "dark" (with_stored "dark" blank)))
    = documentElement (with_marker "dark" (with_stored "dark" blank))
  ∧ localStorage
      (exec (toggleTheme ;; toggleTheme) (with_marker "dark" (with_stored "dark" blank)))
    = localStorage (with_marker "dark" (with_stored "dark" blank)).
Proof.
  destruct (toggle_twice (with_marker "dark" (with_stored "dark" blank)))
    as (_ & Hdoc & _ & _ & _ & Hls).
  - right. reflexivity.
  - split; [exact Hdoc | apply Hls; reflexivity].
Defined.

(** ** The system-preference listener *)

Lemma onSystemThemeChange_eq (e_matches : bool) (w : World) :
  onSystemThemeChange e_matches w =
    match storage_access w with
    | StorageDenied => (Throw SecurityError, w)
    | _ =>
        if js_not (stored w)
        then applyTheme (if e_matches then THEME_DARK else THEME_LIGHT) w
        else (Normal tt, w)
    end.
Proof.
  unfold onSystemThemeChange, stored. js_unfold.
  destruct (storage_access w); try reflexivity;
    destruct (js_not (localStorage w !! STORAGE_KEY)); reflexivity.
Qed.

(** With readable storage holding nothing, or the empty string, under the
    key, the listener applies the theme of the notification. *)
Lemma system_change_followed (e_matches : bool) (w : World) :
  storage_access w ≠ StorageDenied →
  stored w = None ∨ stored w = Some "" →
  returns (onSystemThemeChange e_matches) w = true
  ∧ marker (exec (onSystemThemeChange e_matches) w)
      = if e_matches then Some "dark" else None.
Proof.
  intros Hacc Hst.
  assert (Hnot : js_not (stored w) = true) by (destruct Hst as [-> | ->]; reflexivity).
  assert (Heq : onSystemThemeChange e_matches w
                = applyTheme (if e_matches then THEME_DARK else THEME_LIGHT) w).
  { rewrite onSystemThemeChange_eq, Hnot. destruct (storage_access w); congruence. }
  split.
  - unfold returns. rewrite Heq, applyTheme_eq. reflexivity.
  - unfold exec. rewrite Heq.
    fold (exec (applyTheme (if e_matches then THEME_DARK else THEME_LIGHT)) w).
    rewrite marker_applyTheme. destruct e_matches; reflexivity.
Qed.

(** With any non-empty string stored under the key, whether or not it is a
    theme, the listener changes nothing. *)
Lemma system_change_ignored (e_matches : bool) (v : string) (w : World) :
  stored w = Some v → v ≠ "" →
  exec (onSystemThemeChange e_matches) w = w.
Proof.
  intros Hst Hv. unfold exec. rewrite onSystemThemeChange_eq, Hst. simpl.
  apply String.eqb_neq in Hv. rewrite Hv.
  destruct (storage_access w); reflexivity.
Qed.

(** When every storage access throws, so does the listener, and nothing is
    logged. *)
Lemma system_change_throws (e_matches : bool) (w : World) :
  storage_access w = StorageDenied →
  onSystemThemeChange e_matches w = (Throw SecurityError, w).
Proof. intros Hacc. rewrite onSystemThemeChange_eq, Hacc. reflexivity. Qed.

(** C2, at the failing input: storage holds 'blue', the marker is absent and
    the system switches to prefers-dark. [getStoredTheme] treats the value
    as absent and resolves to the system's 'dark', but the listener takes
    the non-empty string for a stored preference and leaves the state as it
    was: no marker, 'light' applied. *)
Theorem system_change_with_malformed_value :
  stored (with_stored "blue" blank) = Some "blue"
  ∧ fst (getStoredTheme (with_matchMedia (Some true) (with_stored "blue" blank)))
      = Normal "dark"
  ∧ onSystemThemeChange true (with_matchMedia (Some true) (with_stored "blue" blank))
      = (Normal tt, with_matchMedia (Some true) (with_stored "blue" blank))
  ∧ marker (exec (onSystemThemeChange true)
              (with_matchMedia (Some true) (with_stored "blue" blank))) = None
  ∧ applied (exec (onSystemThemeChange true)
               (with_matchMedia (Some true) (with_stored "blue" blank))) = "light".
Proof. vm_compute. repeat split. Qed.

(** C3, at the failing input: with storage access denied, a change
    notification makes the listener throw SecurityError out of the script,
    with no warning on the console, while [getStoredTheme] and [saveTheme]
    in the same state catch the error, log a warning and return. *)
Theorem system_change_throws_on_denied_storage :
  fst (onSystemThemeChange true (with_access StorageDenied blank))
    = Throw SecurityError
  ∧ console (exec (onSystemThemeChange true) (with_access StorageDenied blank)) = []
  ∧ getStoredTheme (with_access StorageDenied blank)
    = (Normal "light",
       push_console "localStorage not available for theme storage"
         (with_access StorageDenied blank))
  ∧ saveTheme "dark" (with_access StorageDenied blank)
    = (Normal tt,
       push_console "Could not save theme to localStorage"
         (with_access StorageDenied blank)).
Proof.
  rewrite (system_change_throws true (with_access StorageDenied blank))
    by reflexivity.
  unfold exec.
  rewrite (system_change_throws true (with_access StorageDenied blank))
    by reflexivity.
  rewrite getStoredTheme_eq, saveTheme_eq. repeat split.
Qed.

(** C5. With 'light' stored, a system-preference notification, reporting
    prefers-dark or not, leaves the root element's attributes, and so the
    marker and the applied theme, unchanged. *)
Theorem system_change_respects_stored_light (e_matches : bool) (w : World) :
  stored w = Some THEME_LIGHT →
  documentElement (exec (onSystemThemeChange e_matches) w) = documentElement w
  ∧ marker (exec (onSystemThemeChange true) w) = marker w
  ∧ applied (exec (onSystemThemeChange true) w) = applied w.
Proof.
  intros Hst.
  assert (H : ∀ b, exec (onSystemThemeChange b) w = w).
  { intros b. apply (system_change_ignored b THEME_LIGHT); [exact Hst | discriminate]. }
  rewrite !H. auto.
Qed.

Lemma system_change_respects_stored_light_witness :
  marker (exec (onSystemThemeChange true) (with_stored "light" blank)) = None.
Proof.
  destruct (system_change_respects_stored_light true (with_stored "light" blank))
    as (_ & Hm & _).
  - reflexivity.
  - rewrite Hm. reflexivity.
Defined.

(** ** setTheme *)

Lemma setTheme_eq (theme : string) (w : World) :
  ThemeSwitcher.setTheme theme w =
    (Normal tt, exec (saveTheme theme) (exec (applyTheme theme) w)).
Proof.
  unfold ThemeSwitcher.setTheme, exec, bind.
  rewrite !applyTheme_eq. simpl. rewrite !saveTheme_eq. reflexivity.
Qed.

(** C9. For every string [theme] other than 'dark', [setTheme theme]
    returns with the marker removed, so that 'light' is shown, and leaves
    storage as [localStorage.setItem] of the key and [theme] itself leaves
    it: with storage accepting the write, [theme] is stored under the key,
    enum member or not. A following [getStoredTheme] then answers with the
    system preference unless [theme] is 'light', as it does when nothing is
    stored. *)
Theorem setTheme_stores_any_string (theme : string) (w : World) :
  theme ≠ THEME_DARK →
  returns (ThemeSwitcher.setTheme theme) w = true
  ∧ marker (exec (ThemeSwitcher.setTheme theme) w) = None
  ∧ applied (exec (ThemeSwitcher.setTheme theme) w) = THEME_LIGHT
  ∧ localStorage (exec (ThemeSwitcher.setTheme theme) w)
      = localStorage (exec (localStorage_setItem STORAGE_KEY theme) w)
  ∧ (storage_access w = StorageOk →
     stored (exec (ThemeSwitcher.setTheme theme) w) = Some theme
     ∧ (theme ≠ THEME_LIGHT →
        fst (getStoredTheme (exec (ThemeSwitcher.setTheme theme) w))
          = Normal (system_theme w)
        ∧ fst (getStoredTheme
                 (set_localStorage (delete STORAGE_KEY)
                    (exec (ThemeSwitcher.setTheme theme) w)))
          = Normal (system_theme w))).
Proof.
  intros Hnd. apply String.eqb_neq in Hnd.
  assert (Hm : marker (exec (ThemeSwitcher.setTheme theme) w) = None).
  { unfold exec at 1. rewrite setTheme_eq. simpl. unfold marker.
    rewrite marker_saveTheme. fold (marker (exec (applyTheme theme) w)).
    rewrite marker_applyTheme, Hnd. reflexivity. }
  split; [unfold returns; by rewrite setTheme_eq|].
  split; [exact Hm|]. split; [unfold applied; by rewrite Hm|].
  split.
  { unfold exec at 1. rewrite setTheme_eq. simpl.
    rewrite localStorage_saveTheme. unfold exec.
    rewrite applyTheme_eq. unfold localStorage_setItem. simpl.
    destruct (storage_access w); reflexivity. }
  intros Hok.
  assert (Hw : exec (ThemeSwitcher.setTheme theme) w
               = set_localStorage (insert STORAGE_KEY theme)
                   (set_documentElement (delete "data-theme") w)).
  { unfold exec. rewrite setTheme_eq. simpl. unfold exec.
    rewrite applyTheme_eq, Hnd. simpl. rewrite saveTheme_eq. simpl.
    rewrite Hok. reflexivity. }
  rewrite Hw. split.
  - unfold stored. simpl. apply lookup_insert_eq.
  - intros Hnl. apply String.eqb_neq in Hnl.
    rewrite !getStoredTheme_eq. simpl. rewrite Hok. unfold stored. simpl.
    rewrite lookup_insert_eq, lookup_delete_eq, Hnd, Hnl. simpl.
    split; reflexivity.
Qed.

Lemma setTheme_stores_any_string_witness :
  marker (exec (ThemeSwitcher.setTheme "blue") (with_marker "dark" blank)) = None
  ∧ stored (exec (ThemeSwitcher.setTheme "blue") (with_marker "dark" blank))
      = Some "blue"
  ∧ fst (getStoredTheme
           (exec (ThemeSwitcher.setTheme "blue") (with_marker "dark" blank)))
      = Normal "light".
Proof.
  destruct (setTheme_stores_any_string "blue" (with_marker "dark" blank))
    as (_ & Hm & _ & _ & Hst).
  - discriminate.
  - destruct Hst as [Hs Hg]; [reflexivity|].
    destruct Hg as [Hg _]; [discriminate|].
    split; [exact Hm|]. split; [exact Hs | exact Hg].
Defined.

(** ** Keyboard activation of a switcher *)

Lemma onKeydown_eq (e : Event) (w : World) :
  onKeydown e w =
    if strict_eq (key e) "Enter" || strict_eq (key e) " "
    then (Normal (preventDefault e), exec toggleTheme w)
    else (Normal e, w).
Proof.
  unfold onKeydown.
  destruct (strict_eq (key e) "Enter" || strict_eq (key e) " "); [|reflexivity].
  unfold bind, exec. rewrite toggleTheme_eq. reflexivity.
Qed.

Lemma listeners_bindSwitcher (el : Element) :
  listeners (bindSwitcher el) =
    (listeners el ++ [("click", ClickToggle); ("keydown", KeydownToggle)])%list.
Proof. unfold bindSwitcher. simpl. by rewrite <- app_assoc. Qed.

Lemma is_switcher_bindSwitcher (el : Element) :
  is_switcher (bindSwitcher el) = is_switcher el.
Proof.
  unfold is_switcher, bindSwitcher. simpl.
  apply bool_decide_ext. rewrite list_elem_of_filter. split.
  - intros [_ H]. exact H.
  - intros H. split; [discriminate | exact H].
Qed.

(** After [initThemeSwitchers] on a page whose elements carry no listener of
    the script yet, every element matching the selector carries exactly the
    click and the keydown listener. *)
Lemma initThemeSwitchers_binds (w0 : World) (el : Element) :
  (∀ x, In x (elements w0) → listeners x = []) →
  In el (elements (exec initThemeSwitchers w0)) →
  is_switcher el = true →
  listeners el = [("click", ClickToggle); ("keydown", KeydownToggle)].
Proof.
  intros Hfresh Hin Hsw. unfold exec, initThemeSwitchers in Hin. simpl in Hin.
  apply in_map_iff in Hin. destruct Hin as (x & Hx & Hin).
  destruct (is_switcher x) eqn:Hswx; subst el.
  - rewrite listeners_bindSwitcher, (Hfresh x Hin). reflexivity.
  - congruence.
Qed.

Lemma rootElement_initThemeSwitchers (w : World) :
  rootElement (exec initThemeSwitchers w)
  = if is_switcher (rootElement w)
    then bindSwitcher (rootElement w)
    else rootElement w.
Proof.
  unfold exec, initThemeSwitchers. cbn [snd].
  destruct (is_switcher (rootElement w)); reflexivity.
Qed.

(** Every element of the page after [initThemeSwitchers], the root element
    included, is an element of the page before, bound if it matches the
    selector. *)
Lemma initThemeSwitchers_page (w : World) (x : Element) :
  In x (rootElement (exec initThemeSwitchers w)
        :: elements (exec initThemeSwitchers w)) →
  ∃ x0, In x0 (rootElement w :: elements w)
    ∧ x = if is_switcher x0 then bindSwitcher x0 else x0.
Proof.
  intros [Hroot | Hin].
  - exists (rootElement w). split; [by left|].
    by rewrite <- Hroot, rootElement_initThemeSwitchers.
  - unfold exec, initThemeSwitchers in Hin. simpl in Hin.
    apply in_map_iff in Hin. destruct Hin as (x0 & Hx & Hin).
    exists x0. split; [by right | by symmetry].
Qed.

Lemma initThemeSwitchers_listeners (w : World) (x : Element) :
  In x (rootElement (exec initThemeSwitchers w)
        :: elements (exec initThemeSwitchers w)) →
  ∃ x0, In x0 (rootElement w :: elements w)
    ∧ is_switcher x = is_switcher x0
    ∧ listeners x =
        if is_switcher x
        then (listeners x0
              ++ [("click", ClickToggle); ("keydown", KeydownToggle)])%list
        else listeners x0.
Proof.
  intros Hin. destruct (initThemeSwitchers_page w x Hin) as (x0 & Hin0 & ->).
  exists x0. split; [exact Hin0|].
  destruct (is_switcher x0) eqn:Hsw.
  - rewrite is_switcher_bindSwitcher, Hsw. split; [reflexivity|].
    apply listeners_bindSwitcher.
  - rewrite Hsw. split; reflexivity.
Qed.

(** The elements of a page that shares classes and listeners with another
    have, each, an element of the other with the same class list and the
    same listeners. *)
Lemma same_page_elements (w w' : World) (x : Element) :
  same_page w w' →
  In x (rootElement w :: elements w) →
  ∃ x', In x' (rootElement w' :: elements w')
    ∧ is_switcher x = is_switcher x'
    ∧ listeners x = listeners x'.
Proof.
  intros (Hc & Hl & He) [<- | Hin].
  - exists (rootElement w'). split; [by left|].
    unfold is_switcher, rootElement. simpl. by rewrite Hc, Hl.
  - exists x. split; [right; by rewrite <- He | done].
Qed.

(** On a page bound once, an element carries the click and the keydown
    listener if it matches the selector, and no listener otherwise. *)
Lemma bound_once_listeners (w0 w : World) (x : Element) :
  (∀ x0, In x0 (rootElement w0 :: elements w0) → listeners x0 = []) →
  same_page w (exec initThemeSwitchers w0) →
  In x (rootElement w :: elements w) →
  listeners x =
    if is_switcher x
    then [("click", ClickToggle); ("keydown", KeydownToggle)]
    else [].
Proof.
  intros Hfresh Hsame Hin.
  destruct (same_page_elements _ _ x Hsame Hin) as (x' & Hin' & -> & ->).
  destruct (initThemeSwitchers_listeners w0 x' Hin') as (x0 & Hin0 & _ & ->).
  rewrite (Hfresh x0 Hin0). by destruct (is_switcher x').
Qed.

Lemma node_in_page (w : World) (t : Target) (el : Element) :
  node w t = Some el → In el (rootElement w :: elements w).
Proof.
  destruct t as [|i]; simpl.
  - intros [= <-]. by left.
  - intros Hi. right. apply list_elem_of_In. by eapply list_elem_of_lookup_2.
Qed.

Lemma enclosing_in_page (w : World) (t : Target) (x : Element) :
  In x (enclosing w t) → In x (rootElement w :: elements w).
Proof.
  destruct t as [|i]; simpl; [done|].
  rewrite in_app_iff. intros [Hin | [<- | []]]; [right | by left].
  apply list_elem_of_In in Hin. apply list_elem_of_omap in Hin.
  destruct Hin as (j & _ & Hj).
  apply list_elem_of_In. by eapply list_elem_of_lookup_2.
Qed.

(** Elements without listeners let an event pass unchanged. *)
Lemma runPath_quiet (path : list Element) (e : Event) (w : World) :
  (∀ x, In x path → listeners x = []) →
  runPath path e w = (Normal e, w).
Proof.
  induction path as [|x path IH]; intros Hq; [reflexivity|].
  cbn [runPath]. rewrite (Hq x) by (by left).
  unfold bind. cbn [runListeners]. unfold ret at 1.
  apply IH. intros y Hy. apply Hq. by right.
Qed.

(** When no enclosing element carries a listener, an event runs the
    listeners of its target only. *)
Lemma dispatch_target_only (w : World) (t : Target) (el : Element) (e : Event) :
  node w t = Some el →
  (∀ x, In x (enclosing w t) → listeners x = []) →
  dispatchEvent t e w = (e' <- runListeners (listeners el) e ;; ret e') w.
Proof.
  intros Hnode Hquiet.
  unfold dispatchEvent, eventPath. rewrite Hnode. cbn [runPath]. unfold bind.
  destruct (runListeners _ e w) as [[e'|x] w']; [|reflexivity].
  unfold ret. apply runPath_quiet. intros x Hx. apply Hquiet.
  destruct (bubbles e); [exact Hx | destruct Hx].
Qed.

(** On a page bound once, an event at a trigger element that no trigger
    element encloses runs the listeners of the target only. *)
Lemma dispatch_unnested (w0 w : World) (t : Target) (el : Element) (e : Event) :
  (∀ x, In x (rootElement w0 :: elements w0) → listeners x = []) →
  same_page w (exec initThemeSwitchers w0) →
  node w t = Some el →
  is_switcher el = true →
  Forall (fun x => is_switcher x = false) (enclosing w t) →
  dispatchEvent t e w
  = (e' <- runListeners [("click", ClickToggle); ("keydown", KeydownToggle)] e ;;
     ret e') w.
Proof.
  intros Hfresh Hsame Hnode Hsw Hencl.
  pose proof (bound_once_listeners w0 w el Hfresh Hsame (node_in_page w t el Hnode))
    as Hls.
  rewrite Hsw in Hls. rewrite <- Hls.
  apply dispatch_target_only; [exact Hnode|].
  intros x Hx.
  rewrite (bound_once_listeners w0 w x Hfresh Hsame (enclosing_in_page w t x Hx)).
  rewrite Forall_forall in Hencl.
  apply list_elem_of_In in Hx. by rewrite (Hencl x Hx).
Qed.





(** ** The marker invariant *)

Lemma onDOMContentLoaded_eq (w : World) :
  onDOMContentLoaded w =
    (Normal tt, exec watchSystemTheme (exec initThemeSwitchers w)).
Proof.
  unfold onDOMContentLoaded, exec, bind, initThemeSwitchers, watchSystemTheme.
  simpl. destruct (matchMedia w); reflexivity.
Qed.

Lemma documentElement_initThemeSwitchers (w : World) :
  documentElement (exec initThemeSwitchers w) =
    if is_switcher (rootElement w)
    then <["tabindex" := "0"]>
           (<["aria-label" := "Toggle dark mode"]>
              (<["role" := "button"]> (documentElement w)))
    else documentElement w.
Proof.
  unfold exec, initThemeSwitchers. cbn [snd].
  destruct (is_switcher (rootElement w)); reflexivity.
Qed.

Lemma documentElement_onDOMContentLoaded (w : World) :
  documentElement (exec onDOMContentLoaded w)
  = documentElement (exec initThemeSwitchers w).
Proof.
  unfold exec at 1. rewrite onDOMContentLoaded_eq.
  unfold exec, watchSystemTheme. cbn [snd].
  destruct (matchMedia _); reflexivity.
Qed.

Lemma marker_onDOMContentLoaded (w : World) :
  marker (exec onDOMContentLoaded w) = marker w.
Proof.
  unfold marker.
  rewrite documentElement_onDOMContentLoaded, documentElement_initThemeSwitchers.
  destruct (is_switcher (rootElement w)); [|reflexivity].
  by rewrite !lookup_insert_ne.
Qed.

Lemma marker_main (w : World) :
  ∃ theme : string,
    fst (getStoredTheme w) = Normal theme
    ∧ marker (exec main w) = if String.eqb theme THEME_DARK then Some "dark" else None.
Proof.
  destruct (getStoredTheme w) as [[theme|x] w1] eqn:Hget.
  2: { pose proof (getStoredTheme_returns w) as Hr. unfold returns in Hr.
       rewrite Hget in Hr. discriminate Hr. }
  exists theme. split; [reflexivity|].
  unfold main, exec, bind. rewrite Hget, applyTheme_eq.
  set (w2 := set_documentElement _ w1).
  assert (Hm : documentElement w2 !! "data-theme"
               = if String.eqb theme THEME_DARK then Some "dark" else None).
  { subst w2. simpl. destruct (String.eqb theme THEME_DARK).
    - apply lookup_insert_eq.
    - apply lookup_delete_eq. }
  destruct (loading w2).
  - exact Hm.
  - fold (exec onDOMContentLoaded w2).
    rewrite marker_onDOMContentLoaded. exact Hm.
Qed.

Lemma marker_ok_main (w : World) : marker_ok (exec main w).
Proof.
  destruct (marker_main w) as (theme & _ & Hm). unfold marker_ok. rewrite Hm.
  destruct (String.eqb theme THEME_DARK); auto.
Qed.

Lemma marker_ok_toggleTheme (w : World) : marker_ok (exec toggleTheme w).
Proof.
  unfold marker_ok. rewrite marker_toggleTheme.
  destruct (strict_eq (marker w) "dark"); auto.
Qed.

Lemma marker_ok_perform (a : Action) (w : World) :
  marker_ok w → marker_ok (perform a w).
Proof.
  intros Hok. destruct a as [| |theme| |theme|b|e|e]; simpl.
  - apply marker_ok_main.
  - unfold marker_ok. rewrite marker_onDOMContentLoaded. exact Hok.
  - apply marker_ok_applyTheme.
  - apply marker_ok_toggleTheme.
  - unfold exec at 1. rewrite setTheme_eq. simpl.
    unfold marker_ok, marker. rewrite marker_saveTheme.
    apply marker_ok_applyTheme.
  - unfold exec. rewrite onSystemThemeChange_eq.
    destruct (storage_access w); try exact Hok;
      (destruct (js_not (stored w)); [apply marker_ok_applyTheme | exact Hok]).
  - unfold exec, onClick, bind. rewrite toggleTheme_eq. simpl.
    rewrite <- exec_toggleTheme. apply marker_ok_toggleTheme.
  - unfold exec at 1. rewrite onKeydown_eq.
    destruct (strict_eq (key e) "Enter" || strict_eq (key e) " ");
      [apply marker_ok_toggleTheme | exact Hok].
Qed.

Lemma getTheme_eq (w : World) :
  ThemeSwitcher.getTheme w = (Normal (applied w), w).
Proof. reflexivity. Qed.

Lemma applied_dark_iff (w : World) :
  marker_ok w → applied w = THEME_DARK ↔ is_Some (marker w).
Proof.
  unfold applied. intros [Hm | Hm]; rewrite Hm; simpl.
  - split; [discriminate | intros [x Hx]; discriminate].
  - split; [eauto | reflexivity].
Qed.

(** In every state of a session the marker is absent or 'dark'. *)
Lemma reachable_marker_ok (w : World) : reachable w → marker_ok w.
Proof.
  induction 1 as [w0 | a w _ IH].
  - apply marker_ok_main.
  - apply marker_ok_perform. exact IH.
Qed.

(** C10. Every action of the script (the script body at startup, the end of
    parsing, apply, toggle, setTheme, the system-change listener, the click
    and keydown listeners) takes a state whose marker is absent or exactly
    'dark' to such a state; there [ThemeSwitcher.getTheme] returns 'dark' or
    'light', and 'dark' if and only if the marker is present. *)
Theorem marker_invariant (a : Action) (w : World) :
  marker_ok w →
  marker_ok (perform a w)
  ∧ ∃ t : string,
      fst (ThemeSwitcher.getTheme (perform a w)) = Normal t
      ∧ (t = THEME_DARK ∨ t = THEME_LIGHT)
      ∧ (t = THEME_DARK ↔ is_Some (marker (perform a w))).
Proof.
  intros Hok. pose proof (marker_ok_perform a w Hok) as Hok'.
  split; [exact Hok'|]. exists (applied (perform a w)).
  split; [by rewrite getTheme_eq|]. split.
  - unfold applied. destruct (strict_eq _ _); auto.
  - apply applied_dark_iff. exact Hok'.
Qed.

Lemma marker_invariant_witness :
  marker_ok (perform (SetTheme "blue") (with_marker "dark" blank))
  ∧ fst (ThemeSwitcher.getTheme (perform Toggle blank)) = Normal "dark".
Proof.
  split.
  - apply (marker_invariant (SetTheme "blue") (with_marker "dark" blank)).
    right. reflexivity.
  - destruct (marker_invariant Toggle blank) as (_ & t & Hget & _ & Hiff).
    + left. reflexivity.
    + rewrite Hget. f_equal. apply Hiff. exists "dark". reflexivity.
Defined.

(** ** Exceptions *)

(** Every other entry of the script returns in every state, storage
    failing or not: the storage accesses of [getStoredTheme] and [saveTheme]
    sit inside a [try]. *)
Lemma guarded_entries_return (w : World) :
  returns main w = true
  ∧ returns toggleTheme w = true
  ∧ (∀ theme, returns (saveTheme theme) w = true)
  ∧ (∀ theme, returns (ThemeSwitcher.setTheme theme) w = true)
  ∧ (∀ e, returns (onClick e) w = true)
  ∧ (∀ e, returns (onKeydown e) w = true).
Proof.
  repeat split; try intros x; unfold returns.
  - unfold main, bind. rewrite getStoredTheme_eq.
    destruct (storage_access w); simpl; rewrite applyTheme_eq;
      match goal with |- context [loading ?w2] => destruct (loading w2) end;
      try reflexivity; by rewrite onDOMContentLoaded_eq.
  - by rewrite toggleTheme_eq.
  - by rewrite saveTheme_eq.
  - by rewrite setTheme_eq.
  - unfold onClick, bind. by rewrite toggleTheme_eq.
  - rewrite onKeydown_eq. by destruct (_ || _).
Qed.

(** * Further properties of the script *)

(** ** States after each function *)

Lemma exec_applyTheme (theme : string) (w : World) :
  exec (applyTheme theme) w =
    set_documentElement
      (if String.eqb theme THEME_DARK
       then insert "data-theme" "dark"
       else delete "data-theme") w.
Proof. unfold exec. by rewrite applyTheme_eq. Qed.

Lemma exec_saveTheme (theme : string) (w : World) :
  exec (saveTheme theme) w =
    match storage_access w with
    | StorageOk => set_localStorage (insert STORAGE_KEY theme) w
    | _ => push_console "Could not save theme to localStorage" w
    end.
Proof. unfold exec. by rewrite saveTheme_eq. Qed.

Lemma exec_getStoredTheme (w : World) :
  exec getStoredTheme w =
    match storage_access w with
    | StorageDenied =>
        push_console "localStorage not available for theme storage" w
    | _ => w
    end.
Proof.
  unfold exec. rewrite getStoredTheme_eq. by destruct (storage_access w).
Qed.

Lemma exec_setTheme (theme : string) (w : World) :
  exec (ThemeSwitcher.setTheme theme) w
  = exec (saveTheme theme) (exec (applyTheme theme) w).
Proof. unfold exec at 1. by rewrite setTheme_eq. Qed.

Lemma exec_onClick (e : Event) (w : World) :
  onClick e w = (Normal (preventDefault e), exec toggleTheme w).
Proof. unfold onClick, bind, exec. by rewrite toggleTheme_eq. Qed.

Lemma exec_onSystemThemeChange (e_matches : bool) (w : World) :
  exec (onSystemThemeChange e_matches) w =
    match storage_access w with
    | StorageDenied => w
    | _ =>
        if js_not (stored w)
        then exec (applyTheme (if e_matches then THEME_DARK else THEME_LIGHT)) w
        else w
    end.
Proof.
  unfold exec. rewrite onSystemThemeChange_eq.
  destruct (storage_access w); try reflexivity; by destruct (js_not (stored w)).
Qed.

Lemma exec_onDOMContentLoaded (w : World) :
  exec onDOMContentLoaded w = exec watchSystemTheme (exec initThemeSwitchers w).
Proof. unfold exec at 1. by rewrite onDOMContentLoaded_eq. Qed.

Lemma exec_main (w : World) :
  ∃ theme : string,
    fst (getStoredTheme w) = Normal theme
    ∧ main w =
        (Normal tt,
         let w2 := exec (applyTheme theme) (exec getStoredTheme w) in
         if loading w2
         then set_domReadyHooked true w2
         else exec onDOMContentLoaded w2).
Proof.
  destruct (getStoredTheme w) as [[theme|x] w1] eqn:Hget.
  2: { pose proof (getStoredTheme_returns w) as Hr. unfold returns in Hr.
       rewrite Hget in Hr. discriminate Hr. }
  exists theme. split; [reflexivity|].
  unfold main, bind, exec. rewrite Hget. simpl. rewrite applyTheme_eq. simpl.
  match goal with |- context [loading ?w2] => destruct (loading w2) end;
    [reflexivity | by rewrite onDOMContentLoaded_eq].
Qed.

Lemma applied_is_theme (w : World) : is_theme (applied w).
Proof. unfold applied, is_theme. destruct (strict_eq _ _); auto. Qed.

Lemma opposite_is_theme (w : World) : is_theme (opposite w).
Proof. unfold opposite, is_theme. destruct (strict_eq _ _); auto. Qed.

Lemma opposite_neq_applied (w : World) : opposite w ≠ applied w.
Proof. unfold opposite, applied. destruct (strict_eq _ _); discriminate. Qed.

Lemma applied_toggleTheme (w : World) : applied (exec toggleTheme w) = opposite w.
Proof.
  unfold applied. rewrite marker_toggleTheme. unfold opposite.
  destruct (strict_eq (marker w) "dark"); reflexivity.
Qed.

(** ** toggle: what it returns, shows, announces and stores *)

(** X1. In every state, whatever the marker held, [toggleTheme] returns one
    of the two themes, the one that was not applied; after the call that
    theme is the applied one and the one [getTheme] reports, it is the
    payload of the single 'themechange' event dispatched, and with working
    storage it is the persisted value. *)
Theorem toggle_result_agrees (w : World) :
  ∃ t : string,
    fst (toggleTheme w) = Normal t
    ∧ is_theme t
    ∧ t ≠ applied w
    ∧ applied (exec toggleTheme w) = t
    ∧ fst (ThemeSwitcher.getTheme (exec toggleTheme w)) = Normal t
    ∧ dispatched (exec toggleTheme w) = t :: dispatched w
    ∧ (storage_access w = StorageOk → stored (exec toggleTheme w) = Some t).
Proof.
  exists (opposite w).
  split; [by rewrite toggleTheme_eq|].
  split; [apply opposite_is_theme|].
  split; [apply opposite_neq_applied|].
  split; [apply applied_toggleTheme|].
  split; [rewrite getTheme_eq; simpl; by rewrite applied_toggleTheme|].
  split; [apply dispatched_toggleTheme|].
  intros Hok. unfold stored. rewrite localStorage_toggleTheme, Hok.
  apply lookup_insert_eq.
Qed.

Lemma toggle_result_agrees_witness :
  fst (toggleTheme (with_marker "blue" blank)) = Normal "dark"
  ∧ stored (exec toggleTheme (with_marker "blue" blank)) = Some "dark".
Proof.
  destruct (toggle_result_agrees (with_marker "blue" blank))
    as (t & Hret & _ & _ & _ & _ & _ & Hst).
  assert (Ht : t = "dark").
  { assert (H : Normal t = Normal "dark") by (rewrite <- Hret; reflexivity).
    congruence. }
  subst t. split; [exact Hret | apply Hst; reflexivity].
Defined.

(** X2. When storage does not accept the write (quota exceeded, or access
    denied), [toggleTheme] still returns, switches the applied theme and
    dispatches its event; the storage content is untouched and exactly one
    warning, that of [saveTheme], is added to the console. *)
Theorem toggle_survives_storage_failure (w : World) :
  storage_access w ≠ StorageOk →
  fst (toggleTheme w) = Normal (opposite w)
  ∧ applied (exec toggleTheme w) = opposite w
  ∧ dispatched (exec toggleTheme w) = opposite w :: dispatched w
  ∧ localStorage (exec toggleTheme w) = localStorage w
  ∧ console (exec toggleTheme w)
    = "Could not save theme to localStorage" :: console w.
Proof.
  intros Hacc.
  split; [by rewrite toggleTheme_eq|].
  split; [apply applied_toggleTheme|].
  split; [apply dispatched_toggleTheme|].
  split.
  - rewrite localStorage_toggleTheme. by destruct (storage_access w).
  - rewrite exec_toggleTheme, exec_saveTheme, exec_applyTheme. simpl.
    by destruct (storage_access w).
Qed.

Lemma toggle_survives_storage_failure_witness :
  applied (exec toggleTheme (with_access StorageQuotaExceeded blank)) = "dark"
  ∧ stored (exec toggleTheme (with_access StorageQuotaExceeded blank)) = None
  ∧ console (exec toggleTheme (with_access StorageDenied blank))
    = ["Could not save theme to localStorage"].
Proof.
  destruct (toggle_survives_storage_failure (with_access StorageQuotaExceeded blank))
    as (_ & Happ & _ & Hls & _); [discriminate|].
  destruct (toggle_survives_storage_failure (with_access StorageDenied blank))
    as (_ & _ & _ & _ & Hcon); [discriminate|].
  split; [rewrite Happ; reflexivity|].
  split; [unfold stored; rewrite Hls; reflexivity | rewrite Hcon; reflexivity].
Defined.

(** ** Trigger elements: binding and activation *)

Lemma is_switcher_bound (el : Element) :
  is_switcher (if is_switcher el then bindSwitcher el else el) = is_switcher el.
Proof.
  destruct (is_switcher el) eqn:Hsw; [|exact Hsw].
  by rewrite is_switcher_bindSwitcher.
Qed.



Lemma runListeners_bound_click (e : Event) (w : World) :
  type e = "click" →
  (e' <- runListeners [("click", ClickToggle); ("keydown", KeydownToggle)] e ;;
   ret e') w
  = (Normal (preventDefault e), exec toggleTheme w).
Proof.
  intros Hty. cbn [runListeners handleEvent]. rewrite Hty, String.eqb_refl.
  unfold bind at 1 2. rewrite exec_onClick.
  assert (Hty' : type (preventDefault e) = "click")
    by (unfold preventDefault; by destruct (cancelable e)).
  rewrite Hty'. change (String.eqb "keydown" "click") with false. reflexivity.
Qed.

Lemma runListeners_bound_other (e : Event) (w : World) :
  type e ≠ "click" → type e ≠ "keydown" →
  (e' <- runListeners [("click", ClickToggle); ("keydown", KeydownToggle)] e ;;
   ret e') w
  = (Normal e, w).
Proof.
  intros Hc Hk. cbn [runListeners handleEvent].
  assert (Hc' : String.eqb "click" (type e) = false)
    by (apply String.eqb_neq; congruence).
  assert (Hk' : String.eqb "keydown" (type e) = false)
    by (apply String.eqb_neq; congruence).
  rewrite Hc', Hk'. reflexivity.
Qed.

Lemma preventDefault_flag (e : Event) :
  defaultPrevented (preventDefault e) = cancelable e || defaultPrevented e.
Proof. unfold preventDefault. by destruct (cancelable e). Qed.

(** X3. On a page bound once by [initThemeSwitchers], at a trigger element
    that no trigger element encloses, a click runs [toggleTheme] exactly
    once, with one 'themechange' event, and comes back with its default
    action prevented when it is cancelable, whatever else the event
    carries; an event of any type other than click and keydown changes
    nothing. *)
Theorem click_activation
    (w0 w : World) (t : Target) (el : Element) (e : Event) :
  (∀ x, In x (rootElement w0 :: elements w0) → listeners x = []) →
  same_page w (exec initThemeSwitchers w0) →
  node w t = Some el →
  is_switcher el = true →
  Forall (fun x => is_switcher x = false) (enclosing w t) →
  (type e = "click" →
   dispatchEvent t e w = (Normal (preventDefault e), exec toggleTheme w)
   ∧ defaultPrevented (preventDefault e) = cancelable e || defaultPrevented e
   ∧ dispatched (exec (dispatchEvent t e) w) = opposite w :: dispatched w)
  ∧ (type e ≠ "click" → type e ≠ "keydown" →
     dispatchEvent t e w = (Normal e, w)).
Proof.
  intros Hfresh Hsame Hnode Hsw Hencl.
  pose proof (dispatch_unnested w0 w t el e Hfresh Hsame Hnode Hsw Hencl) as Hrun.
  split.
  - intros Hty. rewrite runListeners_bound_click in Hrun by exact Hty.
    split; [exact Hrun|]. split; [apply preventDefault_flag|].
    unfold exec at 1. rewrite Hrun. apply dispatched_toggleTheme.
  - intros Hc Hk. rewrite Hrun. by apply runListeners_bound_other.
Qed.

Lemma click_activation_witness :
  dispatched
    (exec (dispatchEvent (TElement 0) mouse_click)
       (with_marker "dark"
          (exec initThemeSwitchers
             (with_elements [mkElement ["theme-switcher"] ∅ []] blank))))
  = ["light"]
  ∧ dispatchEvent (TElement 0) (mkEvent "keyup" (Some "Enter") true true false)
      (exec initThemeSwitchers
         (with_elements [mkElement ["theme-switcher"] ∅ []] blank))
    = (Normal (mkEvent "keyup" (Some "Enter") true true false),
       exec initThemeSwitchers
         (with_elements [mkElement ["theme-switcher"] ∅ []] blank)).
Proof.
  assert (Hfresh : ∀ x,
            In x (rootElement (with_elements [mkElement ["theme-switcher"] ∅ []] blank)
                  :: elements (with_elements [mkElement ["theme-switcher"] ∅ []] blank)) →
            listeners x = []).
  { intros x [<- | [<- | []]]; reflexivity. }
  split.
  - destruct (click_activation _
                (with_marker "dark"
                   (exec initThemeSwitchers
                      (with_elements [mkElement ["theme-switcher"] ∅ []] blank)))
                (TElement 0) (bindSwitcher (mkElement ["theme-switcher"] ∅ []))
                mouse_click Hfresh) as [Hclick _].
    + repeat split.
    + reflexivity.
    + reflexivity.
    + repeat constructor.
    + destruct Hclick as (_ & _ & Hd); [reflexivity|]. rewrite Hd. reflexivity.
  - destruct (click_activation _
                (exec initThemeSwitchers
                   (with_elements [mkElement ["theme-switcher"] ∅ []] blank))
                (TElement 0) (bindSwitcher (mkElement ["theme-switcher"] ∅ []))
                (mkEvent "keyup" (Some "Enter") true true false) Hfresh)
      as [_ Hother].
    + repeat split.
    + reflexivity.
    + reflexivity.
    + repeat constructor.
    + apply Hother; discriminate.
Defined.



(** On a page bound twice, an element matching the selector carries the
    click and the keydown listener twice, and any other element none. *)
Lemma bound_twice_listeners (w0 w : World) (x : Element) :
  (∀ x0, In x0 (rootElement w0 :: elements w0) → listeners x0 = []) →
  same_page w (exec (initThemeSwitchers ;; initThemeSwitchers) w0) →
  In x (rootElement w :: elements w) →
  listeners x =
    if is_switcher x
    then [("click", ClickToggle); ("keydown", KeydownToggle);
          ("click", ClickToggle); ("keydown", KeydownToggle)]
    else [].
Proof.
  intros Hfresh Hsame Hin.
  change (exec (initThemeSwitchers ;; initThemeSwitchers) w0)
    with (exec initThemeSwitchers (exec initThemeSwitchers w0)) in Hsame.
  destruct (same_page_elements _ _ x Hsame Hin) as (x2 & Hin2 & -> & ->).
  destruct (initThemeSwitchers_listeners _ x2 Hin2) as (x1 & Hin1 & Hsw1 & ->).
  destruct (initThemeSwitchers_listeners _ x1 Hin1) as (x0 & Hin0 & _ & ->).
  rewrite <- Hsw1, (Hfresh x0 Hin0). by destruct (is_switcher x2).
Qed.

(** X5. Binding is not guarded against repetition: when
    [initThemeSwitchers] has run twice on a page, a click on a trigger
    element that no trigger element encloses runs [toggleTheme] twice, so
    two 'themechange' events are dispatched and the applied theme ends as
    it started. *)
Theorem double_init_double_toggle
    (w0 w : World) (t : Target) (el : Element) (e : Event) :
  (∀ x, In x (rootElement w0 :: elements w0) → listeners x = []) →
  same_page w (exec (initThemeSwitchers ;; initThemeSwitchers) w0) →
  node w t = Some el →
  is_switcher el = true →
  Forall (fun x => is_switcher x = false) (enclosing w t) →
  type e = "click" →
  dispatchEvent t e w
    = (Normal (preventDefault e), exec toggleTheme (exec toggleTheme w))
  ∧ dispatched (exec (dispatchEvent t e) w)
    = applied w :: opposite w :: dispatched w
  ∧ applied (exec (dispatchEvent t e) w) = applied w.
Proof.
  intros Hfresh Hsame Hnode Hsw Hencl Hty.
  pose proof (bound_twice_listeners w0 w el Hfresh Hsame (node_in_page w t el Hnode))
    as Hls.
  rewrite Hsw in Hls.
  assert (Hty' : type (preventDefault e) = "click")
    by (unfold preventDefault; by destruct (cancelable e)).
  assert (Hpd : preventDefault (preventDefault e) = preventDefault e).
  { unfold preventDefault. destruct (cancelable e) eqn:Hc; simpl; by rewrite ?Hc. }
  assert (Hrun : dispatchEvent t e w
                 = (Normal (preventDefault e), exec toggleTheme (exec toggleTheme w))).
  { rewrite (dispatch_target_only w t el e Hnode).
    - rewrite Hls. cbn [runListeners handleEvent].
      rewrite Hty, String.eqb_refl. unfold bind at 1 2. rewrite exec_onClick.
      rewrite Hty', String.eqb_refl.
      change (String.eqb "keydown" "click") with false. cbv iota.
      unfold bind at 1. rewrite exec_onClick.
      rewrite Hpd, Hty'. change (String.eqb "keydown" "click") with false.
      reflexivity.
    - intros x Hx.
      rewrite (bound_twice_listeners w0 w x Hfresh Hsame (enclosing_in_page w t x Hx)).
      rewrite Forall_forall in Hencl.
      apply list_elem_of_In in Hx. by rewrite (Hencl x Hx). }
  assert (Hex : exec (dispatchEvent t e) w
                = exec toggleTheme (exec toggleTheme w))
    by (unfold exec at 1; by rewrite Hrun).
  split; [exact Hrun|]. rewrite !Hex. split.
  - rewrite dispatched_toggleTheme, dispatched_toggleTheme, opposite_toggled.
    reflexivity.
  - rewrite applied_toggleTheme. apply opposite_toggled.
Qed.

Lemma double_init_double_toggle_witness :
  dispatched
    (exec (dispatchEvent (TElement 0) mouse_click)
       (exec (initThemeSwitchers ;; initThemeSwitchers)
          (with_elements [mkElement ["theme-switcher"] ∅ []] blank)))
  = ["light"; "dark"].
Proof.
  destruct (double_init_double_toggle
              (with_elements [mkElement ["theme-switcher"] ∅ []] blank)
              (exec (initThemeSwitchers ;; initThemeSwitchers)
                 (with_elements [mkElement ["theme-switcher"] ∅ []] blank))
              (TElement 0)
              (bindSwitcher (bindSwitcher (mkElement ["theme-switcher"] ∅ [])))
              mouse_click)
    as (_ & Hd & _).
  - intros x [<- | [<- | []]]; reflexivity.
  - repeat split.
  - reflexivity.
  - reflexivity.
  - repeat constructor.
  - reflexivity.
  - rewrite Hd. reflexivity.
Defined.

(** ** Startup *)

Lemma exec_main_state (w : World) :
  ∃ theme : string,
    fst (getStoredTheme w) = Normal theme
    ∧ exec main w =
        let w2 := exec (applyTheme theme) (exec getStoredTheme w) in
        if loading w2
        then set_domReadyHooked true w2
        else exec watchSystemTheme (exec initThemeSwitchers w2).
Proof.
  destruct (exec_main w) as (theme & Hget & Hmain).
  exists theme. split; [exact Hget|].
  unfold exec at 1. rewrite Hmain. cbn [snd].
  destruct (loading _); [reflexivity | apply exec_onDOMContentLoaded].
Qed.


Lemma getStoredTheme_is_theme (w : World) (t : string) :
  fst (getStoredTheme w) = Normal t → is_theme t.
Proof.
  rewrite getStoredTheme_eq. unfold is_theme. intros Hget.
  assert (Hsys : is_theme (system_theme w)).
  { destruct (system_theme_valid w); [by right | by left]. }
  destruct (storage_access w); simpl in Hget;
    try (destruct (stored w) as [s|];
         [destruct (String.eqb s THEME_DARK) eqn:Hd;
          [apply String.eqb_eq in Hd
          |destruct (String.eqb s THEME_LIGHT) eqn:Hl;
           [apply String.eqb_eq in Hl|]]|]);
    simpl in Hget; injection Hget as <-; auto.
Qed.

Ltac main_fields w theme Hget :=
  let Hmain := fresh "Hmain" in
  destruct (exec_main_state w) as (theme & Hget & Hmain);
  rewrite Hmain; clear Hmain;
  rewrite !exec_applyTheme, !exec_getStoredTheme;
  unfold watchSystemTheme, initThemeSwitchers, exec.

(** X6. The script body never throws and leaves the document showing the
    theme that [getStoredTheme] resolves in the starting state: the marker
    is 'dark' for 'dark' and absent for 'light', whatever it held before.
    Startup writes nothing to storage, so a theme taken from the system is
    not persisted, and dispatches no 'themechange' event. *)
Theorem startup_applies_resolved (w : World) :
  ∃ t : string,
    fst (getStoredTheme w) = Normal t
    ∧ fst (main w) = Normal tt
    ∧ applied (exec main w) = t
    ∧ marker (exec main w) = (if String.eqb t THEME_DARK then Some "dark" else None)
    ∧ localStorage (exec main w) = localStorage w
    ∧ dispatched (exec main w) = dispatched w.
Proof.
  destruct (marker_main w) as (t & Hget & Hm).
  exists t. split; [exact Hget|].
  split.
  { destruct (exec_main w) as (t' & _ & Hmain). by rewrite Hmain. }
  split.
  { unfold applied. rewrite Hm.
    destruct (getStoredTheme_is_theme w t Hget) as [-> | ->]; reflexivity. }
  split; [exact Hm|].
  split.
  - main_fields w theme Hget'.
    destruct (storage_access w); simpl;
      destruct (loading w); simpl; try reflexivity;
      destruct (matchMedia w); reflexivity.
  - main_fields w theme Hget'.
    destruct (storage_access w); simpl;
      destruct (loading w); simpl; try reflexivity;
      destruct (matchMedia w); reflexivity.
Qed.

Lemma startup_applies_resolved_witness :
  marker (exec main (with_marker "blue" (with_matchMedia (Some true) blank)))
  = Some "dark"
  ∧ stored (exec main (with_marker "blue" (with_matchMedia (Some true) blank)))
    = None.
Proof.
  destruct (startup_applies_resolved
              (with_marker "blue" (with_matchMedia (Some true) blank)))
    as (t & Hget & _ & _ & Hm & Hls & _).
  assert (Ht : t = "dark").
  { assert (H : Normal t = Normal "dark") by (rewrite <- Hget; reflexivity).
    congruence. }
  subst t. split; [exact Hm | unfold stored; rewrite Hls; reflexivity].
Defined.



(** ** System preference and explicit choice *)

Lemma applied_applyTheme (theme : string) (w : World) :
  applied (exec (applyTheme theme) w)
  = if String.eqb theme THEME_DARK then THEME_DARK else THEME_LIGHT.
Proof.
  unfold applied. rewrite marker_applyTheme.
  by destruct (String.eqb theme THEME_DARK).
Qed.

Lemma system_change_applies (e_matches : bool) (w : World) :
  storage_access w ≠ StorageDenied →
  js_not (stored w) = true →
  onSystemThemeChange e_matches w
  = (Normal tt, exec (applyTheme (if e_matches then THEME_DARK else THEME_LIGHT)) w).
Proof.
  intros Hacc Hnot. rewrite onSystemThemeChange_eq, Hnot.
  unfold exec. rewrite applyTheme_eq.
  destruct (storage_access w); try reflexivity. congruence.
Qed.

(** X8. With readable storage holding nothing, or the empty string, under
    the key, the system-change listener returns and makes the theme of the
    notification the applied one, without writing to storage or dispatching
    a 'themechange' event; so the next notification is followed as well. *)
Theorem system_change_follows_unpersisted (b1 b2 : bool) (w : World) :
  storage_access w ≠ StorageDenied →
  stored w = None ∨ stored w = Some "" →
  fst (onSystemThemeChange b1 w) = Normal tt
  ∧ applied (exec (onSystemThemeChange b1) w)
    = (if b1 then THEME_DARK else THEME_LIGHT)
  ∧ localStorage (exec (onSystemThemeChange b1) w) = localStorage w
  ∧ dispatched (exec (onSystemThemeChange b1) w) = dispatched w
  ∧ applied (exec (onSystemThemeChange b2) (exec (onSystemThemeChange b1) w))
    = (if b2 then THEME_DARK else THEME_LIGHT).
Proof.
  intros Hacc Hst.
  assert (Hnot : js_not (stored w) = true) by (destruct Hst as [-> | ->]; reflexivity).
  assert (Hstep : ∀ b w0, storage_access w0 ≠ StorageDenied →
            js_not (stored w0) = true →
            exec (onSystemThemeChange b) w0
            = exec (applyTheme (if b then THEME_DARK else THEME_LIGHT)) w0).
  { intros b w0 H1 H2. unfold exec at 1. by rewrite system_change_applies. }
  split; [by rewrite system_change_applies|].
  rewrite (Hstep b1 w Hacc Hnot).
  split; [rewrite applied_applyTheme; by destruct b1|].
  split; [by rewrite exec_applyTheme|].
  split; [by rewrite exec_applyTheme|].
  rewrite Hstep.
  - rewrite applied_applyTheme. by destruct b2.
  - by rewrite exec_applyTheme.
  - by rewrite exec_applyTheme.
Qed.

Lemma system_change_follows_unpersisted_witness :
  applied (exec (onSystemThemeChange true) (with_stored "" blank)) = "dark"
  ∧ applied (exec (onSystemThemeChange false)
               (exec (onSystemThemeChange true) blank)) = "light".
Proof.
  split.
  - destruct (system_change_follows_unpersisted true true (with_stored "" blank))
      as (_ & Happ & _); [discriminate | right; reflexivity | exact Happ].
  - destruct (system_change_follows_unpersisted true false blank)
      as (_ & _ & _ & _ & Happ); [discriminate | left; reflexivity | exact Happ].
Defined.

(** X9. With working storage, the theme chosen by a toggle is an explicit
    preference: a system-preference notification after it, whatever it
    reports, returns and leaves the whole state as the toggle left it. *)
Theorem toggle_then_system_change (e_matches : bool) (w : World) :
  storage_access w = StorageOk →
  onSystemThemeChange e_matches (exec toggleTheme w)
  = (Normal tt, exec toggleTheme w).
Proof.
  intros Hok. rewrite onSystemThemeChange_eq, access_toggleTheme, Hok.
  unfold stored. rewrite localStorage_toggleTheme, Hok, lookup_insert_eq.
  unfold opposite. by destruct (strict_eq (marker w) "dark").
Qed.

Lemma toggle_then_system_change_witness :
  applied (exec (onSystemThemeChange true)
             (exec toggleTheme (with_marker "dark" blank))) = "light".
Proof.
  unfold exec at 1.
  rewrite (toggle_then_system_change true (with_marker "dark" blank)).
  - reflexivity.
  - reflexivity.
Defined.

(** X10. When storage reads but rejects writes and holds nothing (or the
    empty string) under the key, a toggle leaves no stored preference
    behind: the next system-preference notification decides the applied
    theme, also against the theme just toggled to. *)
Theorem unsaved_toggle_is_overridden (e_matches : bool) (w : World) :
  storage_access w = StorageQuotaExceeded →
  stored w = None ∨ stored w = Some "" →
  stored (exec toggleTheme w) = stored w
  ∧ applied (exec (onSystemThemeChange e_matches) (exec toggleTheme w))
    = (if e_matches then THEME_DARK else THEME_LIGHT).
Proof.
  intros Hacc Hst.
  assert (Hls : localStorage (exec toggleTheme w) = localStorage w)
    by (by rewrite localStorage_toggleTheme, Hacc).
  assert (Hst' : stored (exec toggleTheme w) = stored w)
    by (unfold stored; by rewrite Hls).
  split; [exact Hst'|].
  unfold exec at 1. rewrite system_change_applies.
  - cbn [snd]. rewrite applied_applyTheme. by destruct e_matches.
  - rewrite access_toggleTheme, Hacc. discriminate.
  - rewrite Hst'. by destruct Hst as [-> | ->].
Qed.

Lemma unsaved_toggle_is_overridden_witness :
  applied (exec toggleTheme (with_access StorageQuotaExceeded blank)) = "dark"
  ∧ applied (exec (onSystemThemeChange false)
               (exec toggleTheme (with_access StorageQuotaExceeded blank)))
    = "light".
Proof.
  split; [reflexivity|].
  destruct (unsaved_toggle_is_overridden false
              (with_access StorageQuotaExceeded blank)) as [_ Happ].
  - reflexivity.
  - left. reflexivity.
  - exact Happ.
Defined.

(** X11. With working storage, the theme chosen by a toggle survives a
    reload: the script body run in any state that kept the storage content
    and can read it shows the toggled theme, whatever the system preference
    and the marker are there. *)
Theorem toggle_survives_reload (w w' : World) :
  storage_access w = StorageOk →
  localStorage w' = localStorage (exec toggleTheme w) →
  storage_access w' ≠ StorageDenied →
  fst (getStoredTheme w') = Normal (applied (exec toggleTheme w))
  ∧ applied (exec main w') = applied (exec toggleTheme w).
Proof.
  intros Hok Hls Hacc.
  assert (Hget : fst (getStoredTheme w') = Normal (opposite w)).
  { rewrite getStoredTheme_eq. unfold stored.
    rewrite Hls, localStorage_toggleTheme, Hok, lookup_insert_eq.
    unfold opposite.
    destruct (storage_access w'); try congruence;
      by destruct (strict_eq (marker w) "dark"). }
  rewrite applied_toggleTheme. split; [exact Hget|].
  destruct (marker_main w') as (t & Hget' & Hm).
  assert (t = opposite w) by congruence. subst t.
  unfold applied. rewrite Hm. unfold opposite.
  by destruct (strict_eq (marker w) "dark").
Qed.

Lemma toggle_survives_reload_witness :
  applied (exec main
    (with_matchMedia (Some true) (with_stored "light" blank))) = "light".
Proof.
  destruct (toggle_survives_reload (with_marker "dark" blank)
              (with_matchMedia (Some true) (with_stored "light" blank)))
    as [_ Happ].
  - reflexivity.
  - vm_compute. reflexivity.
  - discriminate.
  - rewrite Happ. reflexivity.
Defined.

(** ** What the actions touch *)

Lemma exec_onKeydown (e : Event) (w : World) :
  exec (onKeydown e) w =
    if strict_eq (key e) "Enter" || strict_eq (key e) " "
    then exec toggleTheme w
    else w.
Proof.
  unfold exec at 1. rewrite onKeydown_eq. by destruct (_ || _).
Qed.

Lemma exec_onClick_state (e : Event) (w : World) :
  exec (onClick e) w = exec toggleTheme w.
Proof. unfold exec at 1. by rewrite exec_onClick. Qed.

(** The state after an action, as updates of the state before. *)
Ltac perform_unfold a w :=
  destruct a as [| |?theme| |?theme|?b|?e|?e]; cbn [perform];
  [ let t := fresh "theme" in let H := fresh "Hget" in main_fields w t H
  | rewrite exec_onDOMContentLoaded;
    unfold watchSystemTheme, initThemeSwitchers, exec
  | rewrite exec_applyTheme
  | unfold ThemeSwitcher.toggle;
    rewrite exec_toggleTheme, exec_saveTheme, exec_applyTheme
  | rewrite exec_setTheme, exec_saveTheme, exec_applyTheme
  | rewrite exec_onSystemThemeChange, ?exec_applyTheme
  | rewrite exec_onClick_state, exec_toggleTheme, exec_saveTheme, exec_applyTheme
  | rewrite exec_onKeydown, exec_toggleTheme, exec_saveTheme, exec_applyTheme ];
  simpl.

Ltac split_cases w :=
  repeat match goal with
  | |- context [storage_access w] => destruct (storage_access w) eqn:?; simpl
  | |- context [loading w] => destruct (loading w) eqn:?; simpl
  | |- context [matchMedia w] => destruct (matchMedia w) eqn:?; simpl
  | |- context [js_not (stored w)] => destruct (js_not (stored w)) eqn:?; simpl
  | |- context [strict_eq (key ?e) "Enter" || strict_eq (key ?e) " "] =>
      destruct (strict_eq (key e) "Enter" || strict_eq (key e) " ") eqn:?; simpl
  end.

(** X13. No action of the script, in any state, touches a storage key other
    than its own: the value under every other key is what it was. *)
Theorem storage_frame (a : Action) (w : World) (k : string) :
  k ≠ STORAGE_KEY →
  localStorage (perform a w) !! k = localStorage w !! k.
Proof.
  intros Hk. perform_unfold a w; split_cases w;
    try reflexivity; by rewrite lookup_insert_ne.
Qed.

Lemma storage_frame_witness :
  localStorage
    (perform Toggle (set_localStorage (insert "lang" "pl") blank)) !! "lang"
  = Some "pl".
Proof.
  rewrite (storage_frame Toggle (set_localStorage (insert "lang" "pl") blank) "lang").
  - reflexivity.
  - discriminate.
Defined.

(** X14. The script has no way to clear its storage key: once some value is
    stored under it, every action leaves some value stored under it. *)
Theorem stored_never_removed (a : Action) (w : World) :
  is_Some (stored w) → is_Some (stored (perform a w)).
Proof.
  unfold stored. intros Hst. perform_unfold a w; split_cases w;
    try exact Hst; rewrite lookup_insert_eq; eauto.
Qed.

Lemma stored_never_removed_witness :
  is_Some (stored (perform (SetTheme "") (with_stored "dark" blank))).
Proof.
  apply (stored_never_removed (SetTheme "") (with_stored "dark" blank)).
  exists "dark". reflexivity.
Defined.

Lemma is_switcher_root (w w' : World) :
  rootClassList w = rootClassList w' →
  is_switcher (rootElement w) = is_switcher (rootElement w').
Proof. unfold is_switcher, rootElement. simpl. by intros ->. Qed.

Lemma rootClassList_initThemeSwitchers (w : World) :
  rootClassList (exec initThemeSwitchers w) =
    if is_switcher (rootElement w)
    then filter (fun x => x ≠ "hidden") (rootClassList w)
    else rootClassList w.
Proof.
  unfold exec, initThemeSwitchers. cbn [snd].
  destruct (is_switcher (rootElement w)); reflexivity.
Qed.

Lemma root_watchSystemTheme (w : World) :
  documentElement (exec watchSystemTheme w) = documentElement w
  ∧ rootClassList (exec watchSystemTheme w) = rootClassList w.
Proof.
  unfold exec, watchSystemTheme. by destruct (matchMedia w).
Qed.

(** The root element before binding at startup: the theme is applied, the
    classes are as they were. *)
Lemma root_before_binding (theme k : string) (w : World) :
  k ≠ "data-theme" →
  documentElement (exec (applyTheme theme) (exec getStoredTheme w)) !! k
  = documentElement w !! k
  ∧ rootClassList (exec (applyTheme theme) (exec getStoredTheme w))
    = rootClassList w.
Proof.
  intros Hk. rewrite exec_applyTheme, exec_getStoredTheme. split.
  - destruct (storage_access w), (String.eqb theme THEME_DARK); simpl;
      by rewrite ?lookup_insert_ne, ?lookup_delete_ne.
  - by destruct (storage_access w).
Qed.

(** What binding does to the root element. *)
Lemma root_initThemeSwitchers (k : string) (w : World) :
  (is_switcher (rootElement w) = false
   ∨ (k ≠ "role" ∧ k ≠ "aria-label" ∧ k ≠ "tabindex") →
   documentElement (exec initThemeSwitchers w) !! k = documentElement w !! k)
  ∧ (is_switcher (rootElement w) = false →
     rootClassList (exec initThemeSwitchers w) = rootClassList w)
  ∧ (∀ c, c ≠ "hidden" →
     (c ∈ rootClassList (exec initThemeSwitchers w) ↔ c ∈ rootClassList w)).
Proof.
  rewrite documentElement_initThemeSwitchers, rootClassList_initThemeSwitchers.
  destruct (is_switcher (rootElement w)).
  - split; [|split].
    + intros [? | (Hr & Ha & Ht)]; [done|]. by rewrite !lookup_insert_ne.
    + done.
    + intros c Hc. rewrite list_elem_of_filter. split; [by intros [_ ?] | done].
  - done.
Qed.

(** X15. The script leaves the root element alone, but for two things: the
    data-theme attribute, and the binding of the root element when it
    matches the selector itself. If the root element does not match, no
    action changes an attribute other than data-theme or a class of it; if
    it matches, no action changes an attribute other than data-theme, role,
    aria-label and tabindex, or a class other than 'hidden', and the script
    body on a parsed document sets the three attributes. *)
Theorem attribute_frame (a : Action) (w : World) (k : string) :
  (k ≠ "data-theme" →
   is_switcher (rootElement w) = false
   ∨ (k ≠ "role" ∧ k ≠ "aria-label" ∧ k ≠ "tabindex") →
   documentElement (perform a w) !! k = documentElement w !! k)
  ∧ (is_switcher (rootElement w) = false →
     rootClassList (perform a w) = rootClassList w)
  ∧ (∀ c, c ≠ "hidden" →
     (c ∈ rootClassList (perform a w) ↔ c ∈ rootClassList w))
  ∧ (is_switcher (rootElement w) = true → loading w = false →
     documentElement (perform Startup w) !! "role" = Some "button"
     ∧ documentElement (perform Startup w) !! "aria-label"
       = Some "Toggle dark mode"
     ∧ documentElement (perform Startup w) !! "tabindex" = Some "0").
Proof.
  assert (Hstart : ∃ theme : string,
            exec main w =
              if loading w
              then set_domReadyHooked true
                     (exec (applyTheme theme) (exec getStoredTheme w))
              else exec watchSystemTheme
                     (exec initThemeSwitchers
                        (exec (applyTheme theme) (exec getStoredTheme w)))).
  { destruct (exec_main_state w) as (theme & _ & Hmain). exists theme.
    rewrite Hmain. cbv zeta. rewrite exec_applyTheme, exec_getStoredTheme.
    by destruct (storage_access w). }
  destruct Hstart as (theme & Hstart).
  set (w2 := exec (applyTheme theme) (exec getStoredTheme w)) in Hstart.
  assert (Hcl2 : rootClassList w2 = rootClassList w)
    by (apply (root_before_binding theme "class" w); discriminate).
  assert (Hsw2 : is_switcher (rootElement w2) = is_switcher (rootElement w))
    by (by apply is_switcher_root).
  assert (Hquiet : ∀ w' : World,
            (∀ k', k' ≠ "data-theme" →
               documentElement w' !! k' = documentElement w !! k') →
            rootClassList w' = rootClassList w →
            (k ≠ "data-theme" →
             is_switcher (rootElement w) = false
             ∨ (k ≠ "role" ∧ k ≠ "aria-label" ∧ k ≠ "tabindex") →
             documentElement w' !! k = documentElement w !! k)
            ∧ (is_switcher (rootElement w) = false →
               rootClassList w' = rootClassList w)
            ∧ (∀ c, c ≠ "hidden" →
               (c ∈ rootClassList w' ↔ c ∈ rootClassList w))).
  { intros w' Hattr Hcl. split; [|split].
    - intros Hk _. by apply Hattr.
    - done.
    - intros c _. by rewrite Hcl. }
  assert (Hset : ∀ (t k' : string), k' ≠ "data-theme" →
            (if String.eqb t THEME_DARK
             then <["data-theme" := "dark"]>
             else delete "data-theme") (documentElement w) !! k'
            = documentElement w !! k').
  { intros t k' Hk'. destruct (String.eqb t THEME_DARK);
      [by rewrite lookup_insert_ne | by rewrite lookup_delete_ne]. }
  split_and!.
  4: { intros Hsw Hload. cbn [perform]. rewrite Hstart, Hload.
       destruct (root_watchSystemTheme (exec initThemeSwitchers w2)) as [-> _].
       rewrite documentElement_initThemeSwitchers, Hsw2, Hsw.
       split; [|split].
       - rewrite lookup_insert_ne by discriminate.
         rewrite lookup_insert_ne by discriminate. apply lookup_insert_eq.
       - rewrite lookup_insert_ne by discriminate. apply lookup_insert_eq.
       - apply lookup_insert_eq. }
  all: destruct a as [| |theme'| |theme'|b|e|e]; cbn [perform].
  all: try (unfold ThemeSwitcher.toggle;
            rewrite ?exec_onClick_state, ?exec_onKeydown, ?exec_setTheme,
              ?exec_onSystemThemeChange, ?exec_toggleTheme, ?exec_saveTheme,
              ?exec_applyTheme;
            simpl; split_cases w; first
              [ reflexivity | done
              | intros; apply Hset; assumption
              | intros; reflexivity ]).
  - (* startup *)
    intros Hk Hcase. rewrite Hstart. destruct (loading w).
    + apply (root_before_binding theme k w Hk).
    + destruct (root_watchSystemTheme (exec initThemeSwitchers w2)) as [-> _].
      destruct (root_initThemeSwitchers k w2) as (Hattr & _ & _).
      rewrite Hattr by (by rewrite Hsw2).
      apply (root_before_binding theme k w Hk).
  - (* DOMContentLoaded *)
    intros Hk Hcase. rewrite documentElement_onDOMContentLoaded.
    by apply root_initThemeSwitchers.
  - intros Hsw. rewrite Hstart. destruct (loading w); [exact Hcl2|].
    destruct (root_watchSystemTheme (exec initThemeSwitchers w2)) as [_ ->].
    destruct (root_initThemeSwitchers k w2) as (_ & Hcl & _).
    rewrite Hcl by (by rewrite Hsw2). exact Hcl2.
  - intros Hsw. rewrite exec_onDOMContentLoaded.
    destruct (root_watchSystemTheme (exec initThemeSwitchers w)) as [_ ->].
    by apply (root_initThemeSwitchers k w).
  - intros c Hc. rewrite Hstart. destruct (loading w).
    { change (rootClassList (set_domReadyHooked true w2)) with (rootClassList w2).
      by rewrite Hcl2. }
    destruct (root_watchSystemTheme (exec initThemeSwitchers w2)) as [_ ->].
    destruct (root_initThemeSwitchers k w2) as (_ & _ & Hcl).
    rewrite (Hcl c Hc). by rewrite Hcl2.
  - intros c Hc. rewrite exec_onDOMContentLoaded.
    destruct (root_watchSystemTheme (exec initThemeSwitchers w)) as [_ ->].
    by apply (root_initThemeSwitchers k w).
Qed.

Lemma attribute_frame_witness :
  documentElement
    (perform (SetTheme "dark") (set_documentElement (insert "lang" "en") blank))
    !! "lang"
  = Some "en"
  ∧ documentElement
      (perform Startup (with_rootClassList ["theme-switcher"; "hidden"] blank))
      !! "role"
    = Some "button".
Proof.
  split.
  - destruct (attribute_frame (SetTheme "dark")
                (set_documentElement (insert "lang" "en") blank) "lang")
      as (Hattr & _).
    rewrite Hattr.
    + reflexivity.
    + discriminate.
    + left. reflexivity.
  - destruct (attribute_frame Startup
                (with_rootClassList ["theme-switcher"; "hidden"] blank) "role")
      as (_ & _ & _ & Hbind).
    destruct Hbind as (Hrole & _); [reflexivity | reflexivity | exact Hrole].
Defined.

(** ** setTheme and getTheme *)

(** X12. After [setTheme theme], [getTheme] returns [theme] when it is one
    of the two themes, and 'light' for every other string; unlike a toggle,
    [setTheme] dispatches no 'themechange' event. *)
Theorem setTheme_then_getTheme (theme : string) (w : World) :
  fst (ThemeSwitcher.getTheme (exec (ThemeSwitcher.setTheme theme) w))
  = Normal (if String.eqb theme THEME_DARK then THEME_DARK else THEME_LIGHT)
  ∧ (is_theme theme →
     fst (ThemeSwitcher.getTheme (exec (ThemeSwitcher.setTheme theme) w))
     = Normal theme)
  ∧ dispatched (exec (ThemeSwitcher.setTheme theme) w) = dispatched w.
Proof.
  assert (Happ : applied (exec (ThemeSwitcher.setTheme theme) w)
                 = if String.eqb theme THEME_DARK then THEME_DARK else THEME_LIGHT).
  { rewrite exec_setTheme. unfold applied, marker.
    rewrite marker_saveTheme. fold (marker (exec (applyTheme theme) w)).
    rewrite marker_applyTheme. by destruct (String.eqb theme THEME_DARK). }
  rewrite getTheme_eq. cbn [fst]. rewrite Happ.
  split; [reflexivity|]. split.
  - intros [-> | ->]; reflexivity.
  - rewrite exec_setTheme, exec_saveTheme, exec_applyTheme.
    by destruct (storage_access _).
Qed.

Lemma setTheme_then_getTheme_witness :
  fst (ThemeSwitcher.getTheme
         (exec (ThemeSwitcher.setTheme "dark") (with_access StorageDenied blank)))
  = Normal "dark".
Proof.
  destruct (setTheme_then_getTheme "dark" (with_access StorageDenied blank))
    as (_ & Hget & _).
  apply Hget. right. reflexivity.
Defined.

(** ** Invariants of a session *)

Lemma main_frame (w : World) :
  localStorage (exec main w) = localStorage w
  ∧ dispatched (exec main w) = dispatched w
  ∧ storage_access (exec main w) = storage_access w.
Proof.
  repeat split.
  - main_fields w theme Hget.
    destruct (storage_access w); simpl;
      destruct (loading w); simpl; try reflexivity;
      destruct (matchMedia w); reflexivity.
  - main_fields w theme Hget.
    destruct (storage_access w); simpl;
      destruct (loading w); simpl; try reflexivity;
      destruct (matchMedia w); reflexivity.
  - main_fields w theme Hget.
    destruct (storage_access w) eqn:Hacc; simpl;
      destruct (loading w); simpl; try exact Hacc;
      destruct (matchMedia w); exact Hacc.
Qed.

(** X16. Only [setTheme] with a string that is no theme can put such a
    string into storage: every other action takes a state where the key
    holds nothing, 'light' or 'dark' to such a state. *)
Theorem stored_ok_preserved (a : Action) (w : World) :
  (∀ theme, a = SetTheme theme → is_theme theme) →
  stored_ok w → stored_ok (perform a w).
Proof.
  unfold stored_ok, stored. intros Ha Hst.
  assert (Hopp : ∀ m : gmap string string,
            <[STORAGE_KEY := opposite w]> m !! STORAGE_KEY = Some THEME_LIGHT
            ∨ <[STORAGE_KEY := opposite w]> m !! STORAGE_KEY = Some THEME_DARK).
  { intros m. rewrite lookup_insert_eq.
    destruct (opposite_is_theme w) as [-> | ->]; auto. }
  destruct a as [| |theme| |theme|b|e|e].
  6: { cbn [perform]. rewrite exec_onSystemThemeChange.
       destruct (storage_access w); try exact Hst;
         (destruct (js_not (stored w)); [by rewrite exec_applyTheme | exact Hst]). }
  5: { cbn [perform]. rewrite exec_setTheme, localStorage_saveTheme, exec_applyTheme.
       simpl. destruct (storage_access w); try exact Hst.
       rewrite lookup_insert_eq.
       destruct (Ha theme eq_refl) as [-> | ->]; auto. }
  1: { cbn [perform].
       destruct (main_frame w) as [-> _]. exact Hst. }
  1: { cbn [perform]. rewrite exec_onDOMContentLoaded.
       unfold watchSystemTheme, initThemeSwitchers, exec. simpl.
       by destruct (matchMedia w). }
  1: { cbn [perform]. by rewrite exec_applyTheme. }
  1: { cbn [perform]. unfold ThemeSwitcher.toggle.
       rewrite localStorage_toggleTheme.
       destruct (storage_access w); try exact Hst. right. apply Hopp. }
  1: { cbn [perform]. rewrite exec_onClick_state, localStorage_toggleTheme.
       destruct (storage_access w); try exact Hst. right. apply Hopp. }
  cbn [perform]. rewrite exec_onKeydown.
  destruct (_ || _); [|exact Hst].
  rewrite localStorage_toggleTheme.
  destruct (storage_access w); try exact Hst. right. apply Hopp.
Qed.

Lemma stored_ok_preserved_witness :
  stored_ok (perform (SetTheme "light") (perform Toggle blank)).
Proof.
  apply (stored_ok_preserved (SetTheme "light")).
  - intros theme H. injection H as <-. left. reflexivity.
  - apply (stored_ok_preserved Toggle).
    + intros theme H. discriminate H.
    + left. reflexivity.
Defined.

Lemma toggle_announces (w : World) :
  ∃ t : string,
    is_theme t
    ∧ dispatched (exec toggleTheme w) = t :: dispatched w
    ∧ applied (exec toggleTheme w) = t
    ∧ t ≠ applied w.
Proof.
  exists (opposite w).
  split; [apply opposite_is_theme|].
  split; [apply dispatched_toggleTheme|].
  split; [apply applied_toggleTheme | apply opposite_neq_applied].
Qed.

(** X17. An action dispatches at most one 'themechange' event, and when one
    is dispatched its payload is one of the two themes, is the theme applied
    after the action and is not the theme applied before it. *)
Theorem themechange_announces_applied (a : Action) (w : World) :
  dispatched (perform a w) = dispatched w
  ∨ ∃ t : string,
      is_theme t
      ∧ dispatched (perform a w) = t :: dispatched w
      ∧ applied (perform a w) = t
      ∧ t ≠ applied w.
Proof.
  destruct a as [| |theme| |theme|b|e|e]; cbn [perform].
  - left. apply main_frame.
  - left. rewrite exec_onDOMContentLoaded.
    unfold watchSystemTheme, initThemeSwitchers, exec. simpl.
    by destruct (matchMedia w).
  - left. by rewrite exec_applyTheme.
  - right. apply toggle_announces.
  - left. rewrite exec_setTheme, exec_saveTheme, exec_applyTheme.
    by destruct (storage_access _).
  - left. rewrite exec_onSystemThemeChange.
    destruct (storage_access w); try reflexivity;
      (destruct (js_not (stored w)); [by rewrite exec_applyTheme | reflexivity]).
  - right. rewrite exec_onClick_state. apply toggle_announces.
  - rewrite exec_onKeydown. destruct (_ || _); [right | by left].
    apply toggle_announces.
Qed.

(** X18. With working storage, every action open to the page and its user
    (not a direct call of the internal [applyTheme], and [setTheme] only
    with one of the two themes) keeps the persisted preference and the
    document in agreement: if anything is stored under the key afterwards,
    it is the theme that the document shows. *)
Theorem stored_agrees_with_applied (a : Action) (w : World) :
  storage_access w = StorageOk →
  outside_action a →
  agrees w → agrees (perform a w).
Proof.
  intros Hok Hout Hag.
  assert (Htog : agrees (exec toggleTheme w)).
  { right. unfold stored.
    rewrite localStorage_toggleTheme, Hok, lookup_insert_eq, applied_toggleTheme.
    reflexivity. }
  destruct a as [| |theme| |theme|b|e|e]; cbn [perform].
  - destruct (main_frame w) as (Hls & _ & _).
    destruct (marker_main w) as (t & Hget & Hm).
    unfold agrees, stored. rewrite Hls. fold (stored w).
    destruct Hag as [Hnone | Hsome]; [by left | right].
    rewrite Hsome. f_equal.
    rewrite getStoredTheme_eq, Hok, Hsome in Hget. cbn [fst] in Hget.
    unfold applied at 2. rewrite Hm.
    destruct (applied_is_theme w) as [Happ | Happ]; rewrite Happ in Hget;
      simpl in Hget; injection Hget as <-; rewrite Happ; reflexivity.
  - assert (Hls : localStorage (exec onDOMContentLoaded w) = localStorage w).
    { rewrite exec_onDOMContentLoaded.
      unfold watchSystemTheme, initThemeSwitchers, exec. simpl.
      by destruct (matchMedia w). }
    unfold agrees, applied, stored.
    by rewrite marker_onDOMContentLoaded, Hls.
  - destruct Hout.
  - exact Htog.
  - right. rewrite exec_setTheme. unfold stored.
    rewrite localStorage_saveTheme, exec_applyTheme. simpl.
    rewrite Hok, lookup_insert_eq. f_equal.
    unfold applied, marker. rewrite marker_saveTheme.
    fold (marker (set_documentElement
                    (if String.eqb theme THEME_DARK
                     then <["data-theme" := "dark"]>
                     else delete "data-theme") w)).
    rewrite <- exec_applyTheme, marker_applyTheme.
    destruct Hout as [-> | ->]; reflexivity.
  - rewrite exec_onSystemThemeChange, Hok.
    destruct Hag as [Hnone | Hsome].
    + rewrite Hnone. simpl. left. by rewrite exec_applyTheme.
    + rewrite Hsome.
      destruct (applied_is_theme w) as [Happ | Happ]; rewrite Happ; simpl;
        right; rewrite Hsome, Happ; reflexivity.
  - rewrite exec_onClick_state. exact Htog.
  - rewrite exec_onKeydown. destruct (_ || _); [exact Htog | exact Hag].
Qed.

Lemma stored_agrees_with_applied_witness :
  agrees (perform (SystemChange true) (perform (SetTheme "light") blank)).
Proof.
  apply (stored_agrees_with_applied (SystemChange true)).
  - reflexivity.
  - exact I.
  - apply (stored_agrees_with_applied (SetTheme "light")).
    + reflexivity.
    + left. reflexivity.
    + left. reflexivity.
Defined.

(** X19. The script writes to the console only when a storage access
    fails: with working storage, no action adds a warning. *)
Theorem console_quiet_with_working_storage (a : Action) (w : World) :
  storage_access w = StorageOk →
  console (perform a w) = console w.
Proof.
  intros Hok. perform_unfold a w; rewrite ?Hok; simpl; split_cases w;
    rewrite ?Hok; reflexivity.
Qed.

Lemma console_quiet_with_working_storage_witness :
  console (perform Startup (with_stored "blue" blank)) = [].
Proof.
  rewrite (console_quiet_with_working_storage Startup (with_stored "blue" blank)).
  - reflexivity.
  - reflexivity.
Defined.
